(** * Evaluator: a shallow embedding of [src/evaluate.py]

    The file [evaluate.py] holds one class, [Evaluator], whose methods are a
    straight-line composition of calls into torch, scikit-learn,
    torchmetrics, matplotlib and pathlib.  The embedding keeps that shape:

    - the external routines are the fields of the class [Library]; every
      routine that can raise returns a [Res];
    - Python's mutable world (the attributes of the Evaluator, the heap of
      estimator objects, standard output, pyplot's open figures and the
      file system) is the record [State], threaded by the monad [M], which
      keeps the state reached when an exception escapes;
    - the methods [__init__], [evaluate], [_predict], [calculate_roc] and
      [plot_roc] are written statement by statement after the source. *)

From Stdlib Require Import ZArith List Ascii.
From Stdlib Require Import Floats.SpecFloat.
From stdpp Require Import gmap strings list fin_maps pretty.

Local Open Scope Z_scope.

(** ** Values *)

(** IEEE-754 values, as numpy's float64 and Python's float hold them. *)
Definition float := spec_float.

(** The binary64 constants [0.0] and [1.0] (the literals [0] and [1] that
    [plot_roc] hands to pyplot are converted to them). *)
Definition f0 : float := S754_zero false.
Definition f1 : float := S754_finite false 4503599627370496 (-52).

(** Python exceptions.  [LibraryError] carries the class name and message of
    whatever an external routine raised. *)
Inductive exn :=
| LibraryError (cls msg : string)
| NotFittedError
| AttributeError (name : string)
| FileNotFoundError (path : string)
| NotADirectoryError (path : string)
| IsADirectoryError (path : string).

(** The outcome of a call: a value, or an exception on its way up. *)
Inductive Res (A : Type) :=
| Ok (a : A)
| Raise (e : exn).
Arguments Ok {A} a.
Arguments Raise {A} e.

#[global] Instance Res_ret : MRet Res := fun _ a => Ok a.
#[global] Instance Res_bind : MBind Res := fun _ _ f r =>
  match r with
  | Ok a => f a
  | Raise e => Raise e
  end.

(** What a pyplot call leaves on the current figure. *)
Inductive PlotCmd :=
| Title (s : string)
| Plot (xs ys : list float) (fmt : string) (label : option string)
| Legend (loc : string)
| XLim (lo hi : Z)
| YLim (lo hi : Z)
| YLabel (s : string)
| XLabel (s : string).

Definition Figure := list PlotCmd.

(** Heap addresses of estimator objects. *)
Definition loc := nat.

(** ** The external libraries *)

Class Library := {
  (** torch: input batches, the model's auxiliary output, tensors, devices *)
  Data : Type;
  Aux : Type;
  Tensor : Type;
  Device : Type;
  (** what [KernelDensity.fit] builds and stores on the estimator *)
  Tree : Type;
  (** the bytes [savefig] writes *)
  Image : Type;
  (** [t.cpu()] *)
  cpu : Tensor -> Tensor;
  (** [torch.cat(ts)] *)
  torch_cat : list Tensor -> Res Tensor;
  (** [torch.from_numpy(a)] *)
  from_numpy : list float -> Tensor;
  (** [KernelDensity(kernel, bandwidth).fit(X)]: the fitted structure *)
  kde_fit : string -> Z -> Tensor -> Res Tree;
  (** [score_samples(X)] of an estimator fitted to a tree: log-densities *)
  kde_score_samples : string -> Z -> Tree -> Tensor -> Res (list float);
  (** [Dice(average=a)(preds, target)] *)
  Dice : string -> Tensor -> Tensor -> Res float;
  (** [average_precision_score(y_true, y_score)] *)
  average_precision_score : Tensor -> Tensor -> Res float;
  (** [roc_curve(y_true, y_score)]: fpr, tpr, thresholds *)
  roc_curve : Tensor -> list float -> Res (list float * list float * list float);
  (** [auc(x, y)] *)
  auc : list float -> list float -> Res float;
  (** [format(x, spec)], also what an f-string field and [%] do *)
  format_float : string -> float -> string;
  (** [str(Path(a) / b)] *)
  path_join : string -> string -> string;
  (** the directory a path lies in *)
  path_parent : string -> string;
  (** the picture of a figure *)
  render : Figure -> Image;
}.

Section Evaluator.
Context {L : Library}.

(** ** Objects *)

(** The model under evaluation: callable on a batch, with the stored
    reference embeddings [model.embeds]. *)
Record Model := {
  forward : Data -> Res (Tensor * Aux);
  embeds : Tensor;
}.

(** A [sklearn.neighbors.KernelDensity] object. *)
Record KernelDensity := {
  kernel : string;
  bandwidth : Z;
  tree_ : option Tree;
}.

(** The attributes [__init__] binds on [self].  The loader is held as the
    batches one pass over it yields; a loader that yields other batches at
    a later pass, or none, is another value of the attribute (see
    [with_self]). *)
Record Evaluator := {
  model : Model;
  device : Device;
  pathology : string;
  output_dir : string;
  test_data_loader : list (Data * Tensor);
  gde : loc;
}.

Inductive Node :=
| Dir
| File (img : Image).

(** Everything outside the Evaluator that a method can read or change. *)
Record World := {
  w_heap : gmap loc KernelDensity;
  w_stdout : list string;
  w_figures : list Figure;
  w_fs : gmap string Node;
}.

Record State := {
  this : Evaluator;
  heap : gmap loc KernelDensity;
  stdout : list string;
  figures : list Figure;
  fs : gmap string Node;
}.

Definition set_heap (h : gmap loc KernelDensity) (s : State) : State :=
  {| this := this s; heap := h; stdout := stdout s;
     figures := figures s; fs := fs s |}.
Definition set_stdout (o : list string) (s : State) : State :=
  {| this := this s; heap := heap s; stdout := o;
     figures := figures s; fs := fs s |}.
Definition set_figures (g : list Figure) (s : State) : State :=
  {| this := this s; heap := heap s; stdout := stdout s;
     figures := g; fs := fs s |}.
Definition set_fs (f : gmap string Node) (s : State) : State :=
  {| this := this s; heap := heap s; stdout := stdout s;
     figures := figures s; fs := f |}.

(** ** The monad of methods *)

Definition M (A : Type) : Type := State -> Res A * State.

#[global] Instance M_ret : MRet M := fun _ a s => (Ok a, s).
#[global] Instance M_bind : MBind M := fun _ _ f m s =>
  match m s with
  | (Ok a, s') => f a s'
  | (Raise e, s') => (Raise e, s')
  end.

(** A library call whose only effect is its result. *)
Definition lift {A} (r : Res A) : M A := fun s => (r, s).
Definition raise {A} (e : exn) : M A := fun s => (Raise e, s).
(** Reading [self]. *)
Definition get_self : M Evaluator := fun s => (Ok (this s), s).

(** [print(line)] *)
Definition print (line : string) : M unit :=
  fun s => (Ok tt, set_stdout (stdout s ++ [line]) s).

(** *** KernelDensity methods on the object at an address *)

Definition with_tree (t : Tree) (k : KernelDensity) : KernelDensity :=
  {| kernel := kernel k; bandwidth := bandwidth k; tree_ := Some t |}.

(** [est.fit(X)]: builds the tree from [X] and stores it on [est]. *)
Definition fit (l : loc) (X : Tensor) : M unit := fun s =>
  match heap s !! l with
  | None => (Raise (AttributeError "gde"), s)
  | Some k =>
      match kde_fit (kernel k) (bandwidth k) X with
      | Ok t => (Ok tt, set_heap (<[l := with_tree t k]> (heap s)) s)
      | Raise e => (Raise e, s)
      end
  end.

(** [est.score_samples(X)] *)
Definition score_samples (l : loc) (X : Tensor) : M (list float) := fun s =>
  match heap s !! l with
  | None => (Raise (AttributeError "gde"), s)
  | Some k =>
      match tree_ k with
      | None => (Raise NotFittedError, s)
      | Some t => (kde_score_samples (kernel k) (bandwidth k) t X, s)
      end
  end.

(** *** pyplot *)

(** A drawing call acts on the current figure, opening one if none is. *)
Definition draw (c : PlotCmd) (figs : list Figure) : list Figure :=
  match figs with
  | [] => [[c]]
  | f :: rest => (f ++ [c]) :: rest
  end.

Definition plt (c : PlotCmd) : M unit :=
  fun s => (Ok tt, set_figures (draw c (figures s)) s).

(** Writing a file: its directory has to exist, and it must not itself be
    a directory; an older file of that name is replaced. *)
Definition write_file (p : string) (img : Image) : M unit := fun s =>
  match fs s !! path_parent p with
  | None => (Raise (FileNotFoundError p), s)
  | Some (File _) => (Raise (NotADirectoryError p), s)
  | Some Dir =>
      match fs s !! p with
      | Some Dir => (Raise (IsADirectoryError p), s)
      | _ => (Ok tt, set_fs (<[p := File img]> (fs s)) s)
      end
  end.

(** [plt.savefig(p)] saves the current figure (an empty one is opened when
    none is). *)
Definition plt_savefig (p : string) : M unit := fun s =>
  match figures s with
  | [] => write_file p (render []) (set_figures [[]] s)
  | f :: _ => write_file p (render f) s
  end.

(** [plt.close()] closes the current figure. *)
Definition plt_close : M unit :=
  fun s => (Ok tt, set_figures (tail (figures s)) s).

(** ** The methods of [Evaluator] *)

(** [__init__]: binds the attributes and constructs the estimator. *)
Definition __init__ (model0 : Model) (device0 : Device) (pathology0 : string)
    (test_data_loader0 : list (Data * Tensor)) (output_dir0 : option string)
    (w : World) : State :=
  let l := fresh (dom (w_heap w)) in
  {| this := {| model := model0;
                device := device0;
                pathology := pathology0;
                output_dir := default "./results" output_dir0;
                test_data_loader := test_data_loader0;
                gde := l |};
     heap := <[l := {| kernel := "gaussian"; bandwidth := 1; tree_ := None |}]>
               (w_heap w);
     stdout := w_stdout w;
     figures := w_figures w;
     fs := w_fs w |}.

(** The loop of [evaluate]: one model call per batch, the embedding and the
    label of each batch appended in the order met. *)
Fixpoint collect (m : Model) (batches : list (Data * Tensor))
    (labels embeds : list Tensor) : Res (list Tensor * list Tensor) :=
  match batches with
  | [] => Ok (labels, embeds)
  | (data, label) :: rest =>
      '(embed, _) ← forward m data;
      collect m rest (labels ++ [cpu label]) (embeds ++ [cpu embed])
  end.

(** [m.embeds], under a name the locals of [evaluate] do not shadow. *)
Definition model_embeds (m : Model) : Tensor := embeds m.

Definition _predict (embeddings : Tensor) : M (list float) :=
  self ← get_self;
  scores ← score_samples (gde self) embeddings;
  let scores := map SFopp scores in
  mret scores.

Definition calculate_roc (scores : list float) (labels : Tensor)
    : M (list float * list float * float) :=
  '(fpr, tpr, _) ← lift (roc_curve labels scores);
  roc_auc ← lift (auc fpr tpr);
  print ("ROC AUC: " +:+ format_float ".3f" roc_auc);;
  mret (fpr, tpr, roc_auc).

Definition plot_roc (fpr tpr : list float) (roc_auc : float)
    (pathology : string) (save_path : string) : M unit :=
  plt (Title ("ROC curve: " +:+ pathology));;
  plt (Plot fpr tpr "b" (Some ("AUC = " +:+ format_float "0.2f" roc_auc)));;
  plt (Legend "lower right");;
  plt (Plot [f0; f1] [f0; f1] "r--" None);;
  plt (XLim 0 1);;
  plt (YLim 0 1);;
  plt (YLabel "True Positive Rate");;
  plt (XLabel "False Positive Rate");;
  let image_path := path_join save_path ("roc_" +:+ pathology +:+ ".png") in
  plt_savefig image_path;;
  plt_close.

Definition evaluate : M (float * float * float) :=
  self ← get_self;
  '(labels, embeds) ← lift (collect (model self) (test_data_loader self) [] []);
  labels ← lift (torch_cat labels);
  embeds ← lift (torch_cat embeds);
  fit (gde self) (cpu (model_embeds (model self)));;
  scores ← _predict embeds;
  dice_score ← lift (Dice "micro" (from_numpy scores) labels);
  print ("Dice score: " +:+ format_float ".3f" dice_score);;
  ap_score ← lift (average_precision_score labels (from_numpy scores));
  print ("Average precision: " +:+ format_float ".3f" ap_score);;
  '(fpr, tpr, roc_auc) ← calculate_roc scores labels;
  plot_roc fpr tpr roc_auc (pathology self) (output_dir self);;
  mret (roc_auc, dice_score, ap_score).

(** ** Vocabulary for the statements

    The values a run of [evaluate] goes through, written as functions of
    what the method reads: the attributes of [self], the estimator object
    [self.gde] points to and the file system. *)

(** Lines 51-61: the labels and the test embeddings, concatenated. *)
Definition test_set (self : Evaluator) : Res (Tensor * Tensor) :=
  '(labels, embeds) ← collect (model self) (test_data_loader self) [] [];
  labels ← torch_cat labels;
  embeds ← torch_cat embeds;
  mret (labels, embeds).

(** Lines 63 and 78: the tree fitted on [model.embeds] by an estimator with
    the parameters of [k], and the log-density of every test embedding. *)
Definition log_density (self : Evaluator) (k : KernelDensity)
    : Res (Tensor * Tree * list float) :=
  '(labels, embeds) ← test_set self;
  t ← kde_fit (kernel k) (bandwidth k) (cpu (model_embeds (model self)));
  dens ← kde_score_samples (kernel k) (bandwidth k) t embeds;
  mret (labels, t, dens).

(** Lines 94-95. *)
Definition roc (scores : list float) (labels : Tensor)
    : Res (list float * list float * float) :=
  '(fpr, tpr, _) ← roc_curve labels scores;
  roc_auc ← auc fpr tpr;
  mret (fpr, tpr, roc_auc).

(** The three printed lines. *)
Definition dice_line (x : float) : string :=
  "Dice score: " +:+ format_float ".3f" x.
Definition ap_line (x : float) : string :=
  "Average precision: " +:+ format_float ".3f" x.
Definition roc_line (x : float) : string :=
  "ROC AUC: " +:+ format_float ".3f" x.

(** The pyplot calls of [plot_roc] before [savefig], in order. *)
Definition roc_commands (fpr tpr : list float) (roc_auc : float)
    (pathology : string) : Figure :=
  [ Title ("ROC curve: " +:+ pathology);
    Plot fpr tpr "b" (Some ("AUC = " +:+ format_float "0.2f" roc_auc));
    Legend "lower right";
    Plot [f0; f1] [f0; f1] "r--" None;
    XLim 0 1;
    YLim 0 1;
    YLabel "True Positive Rate";
    XLabel "False Positive Rate" ].

(** The figure that is current once [cmds] are drawn. *)
Definition drawn (cmds : Figure) (figs : list Figure) : Figure :=
  match figs with
  | [] => cmds
  | f :: _ => f ++ cmds
  end.

(** [<save_path>/roc_<pathology>.png] *)
Definition roc_path (save_path pathology : string) : string :=
  path_join save_path ("roc_" +:+ pathology +:+ ".png").

(** The exception writing to [p] meets, if any. *)
Definition save_error (f : gmap string Node) (p : string) : option exn :=
  match f !! path_parent p with
  | None => Some (FileNotFoundError p)
  | Some (File _) => Some (NotADirectoryError p)
  | Some Dir =>
      match f !! p with
      | Some Dir => Some (IsADirectoryError p)
      | _ => None
      end
  end.

(** The first external call of [evaluate] that raises, the exception it
    raises and the lines printed before it. *)
Inductive library_raises (self : Evaluator) (k : KernelDensity)
    (f : gmap string Node) : exn -> list string -> Prop :=
| raises_scoring e :
    log_density self k = Raise e ->
    library_raises self k f e []
| raises_dice labels t dens e :
    log_density self k = Ok (labels, t, dens) ->
    Dice "micro" (from_numpy (map SFopp dens)) labels = Raise e ->
    library_raises self k f e []
| raises_ap labels t dens d e :
    log_density self k = Ok (labels, t, dens) ->
    Dice "micro" (from_numpy (map SFopp dens)) labels = Ok d ->
    average_precision_score labels (from_numpy (map SFopp dens)) = Raise e ->
    library_raises self k f e [dice_line d]
| raises_roc labels t dens d a e :
    log_density self k = Ok (labels, t, dens) ->
    Dice "micro" (from_numpy (map SFopp dens)) labels = Ok d ->
    average_precision_score labels (from_numpy (map SFopp dens)) = Ok a ->
    roc (map SFopp dens) labels = Raise e ->
    library_raises self k f e [dice_line d; ap_line a]
| raises_savefig labels t dens d a fpr tpr r e :
    log_density self k = Ok (labels, t, dens) ->
    Dice "micro" (from_numpy (map SFopp dens)) labels = Ok d ->
    average_precision_score labels (from_numpy (map SFopp dens)) = Ok a ->
    roc (map SFopp dens) labels = Ok (fpr, tpr, r) ->
    save_error f (roc_path (output_dir self) (pathology self)) = Some e ->
    library_raises self k f e [dice_line d; ap_line a; roc_line r].

(** The state a run of [evaluate] that returns leaves. *)
Definition finished (s : State) (k : KernelDensity) (t : Tree)
    (d a r : float) (fig : Figure) : State :=
  {| this := this s;
     heap := <[gde (this s) := with_tree t k]> (heap s);
     stdout := stdout s ++ [dice_line d; ap_line a; roc_line r];
     figures := tail (figures s);
     fs := <[roc_path (output_dir (this s)) (pathology (this s))
               := File (render fig)]> (fs s) |}.

(** What any method may do to the state: the attributes of [self], the set
    of estimator objects and their parameters stay; only the estimator of
    [self] is touched; standard output grows; no directory comes or goes. *)
Record evolves (s s' : State) : Prop := {
  ev_this : this s' = this s;
  ev_dom : dom (heap s') = dom (heap s);
  ev_params : forall l k, heap s !! l = Some k ->
    exists k', heap s' !! l = Some k' /\
      kernel k' = kernel k /\ bandwidth k' = bandwidth k;
  ev_others : forall l, l <> gde (this s) -> heap s' !! l = heap s !! l;
  ev_stdout : exists out, stdout s' = stdout s ++ out;
  ev_dirs : forall p, fs s' !! p = Some Dir <-> fs s !! p = Some Dir;
}.

(** A computation keeps to [evolves] when every run of it on the
    Evaluator [self] does. *)
Definition steady {A} (self : Evaluator) (m : M A) : Prop :=
  forall s, this s = self -> evolves s (snd (m s)).

(** Calls of the methods, for sequences of them. *)
Inductive Call :=
| CallEvaluate
| CallPredict (embeddings : Tensor)
| CallCalculateRoc (scores : list float) (labels : Tensor)
| CallPlotRoc (fpr tpr : list float) (roc_auc : float)
    (pathology save_path : string).

(** The state a call leaves, whether it returns or raises. *)
Definition after (c : Call) (s : State) : State :=
  match c with
  | CallEvaluate => snd (evaluate s)
  | CallPredict e => snd (_predict e s)
  | CallCalculateRoc scores labels => snd (calculate_roc scores labels s)
  | CallPlotRoc fpr tpr a p d => snd (plot_roc fpr tpr a p d s)
  end.

Definition after_all (cs : list Call) (s : State) : State :=
  fold_left (fun s c => after c s) cs s.

(** The estimator as the constructor makes it. *)
Definition gaussian_kde (t : option Tree) : KernelDensity :=
  {| kernel := "gaussian"; bandwidth := 1; tree_ := t |}.

(** ** More vocabulary *)

(** What a state hands to the next constructor call. *)
Definition world_of (s : State) : World :=
  {| w_heap := heap s; w_stdout := stdout s;
     w_figures := figures s; w_fs := fs s |}.

(** The attributes of [self] rebound from outside (they are public):
    [self.model = ...] and the like.  The objects on the heap stay. *)
Definition with_self (self : Evaluator) (s : State) : State :=
  {| this := self; heap := heap s; stdout := stdout s;
     figures := figures s; fs := fs s |}.

(** [self.device = d] *)
Definition set_device (d : Device) (s : State) : State :=
  {| this := {| model := model (this s);
                device := d;
                pathology := pathology (this s);
                output_dir := output_dir (this s);
                test_data_loader := test_data_loader (this s);
                gde := gde (this s) |};
     heap := heap s; stdout := stdout s;
     figures := figures s; fs := fs s |}.

(** A computation that neither reads nor writes [self.device]. *)
Definition device_blind {A} (m : M A) : Prop :=
  forall d s, m (set_device d s) = (fst (m s), set_device d (snd (m s))).

Definition is_evaluate (c : Call) : bool :=
  match c with
  | CallEvaluate => true
  | _ => false
  end.

End Evaluator.

(** ** A stand-in library

    Small executable stand-ins for the external routines, to run the
    methods on concrete inputs.  Tensors are flat lists of floats, the
    density is replaced by minus the squared distance to the first reference
    point, and the ROC and precision routines only tell a perfect ranking
    from the rest.  No general statement below depends on them. *)
Module Stub.

Definition of_Z (z : Z) : float := binary_normalize 53 1024 z 0 false.
Definition half : float := binary_normalize 53 1024 1 (-1) false.
Definition add := SFadd 53 1024.
Definition sub := SFsub 53 1024.
Definition mul := SFmul 53 1024.
Definition div := SFdiv 53 1024.

(** Fixed-point formatting of a float, rounding half to even. *)
Definition pad (p : nat) (d : string) : string :=
  Nat.iter (p - String.length d)%nat (String "0"%char) d.

Definition round_half_even (n d : Z) : Z :=
  let q := n / d in
  let r := n mod d in
  if 2 * r <? d then q
  else if d <? 2 * r then q + 1
  else if Z.even q then q else q + 1.

Definition fixed (p : nat) (x : float) : string :=
  match x with
  | S754_nan => "nan"
  | S754_infinity s => if s then "-inf" else "inf"
  | S754_zero s => (if s then "-" else "") +:+ "0." +:+ pad p ""
  | S754_finite s m e =>
      let scale := 10 ^ Z.of_nat p in
      let n := if 0 <=? e then Z.pos m * 2 ^ e * scale
               else round_half_even (Z.pos m * scale) (2 ^ (- e)) in
      (if s then "-" else "") +:+ pretty (n / scale) +:+ "." +:+
      pad p (pretty (n mod scale))
  end.

Definition format (spec : string) (x : float) : string :=
  if decide (spec = ".3f") then fixed 3 x
  else if decide (spec = "0.2f") then fixed 2 x
  else "".

Definition shape_error : exn :=
  LibraryError "ValueError" "inconsistent numbers of samples".

Definition cat (ts : list (list float)) : Res (list float) :=
  match ts with
  | [] => Raise (LibraryError "RuntimeError" "expected a non-empty list of Tensors")
  | _ => Ok (concat ts)
  end.

Definition fit_tree (kernel : string) (bandwidth : Z) (X : list float)
    : Res (list float) :=
  match X with
  | [] => Raise (LibraryError "ValueError" "Found array with 0 sample(s)")
  | _ => Ok X
  end.

Definition log_dens (kernel : string) (bandwidth : Z) (t X : list float)
    : Res (list float) :=
  Ok (map (fun x => SFopp (mul (sub x (hd f0 t)) (sub x (hd f0 t)))) X).

Definition positive (l : float) : bool := SFeqb l (of_Z 1).

(** Every positive scores above every negative. *)
Definition separated (labels scores : list float) : bool :=
  forallb (fun '(l, x) =>
    forallb (fun '(l', x') =>
      if positive l && negb (positive l') then SFltb x' x else true)
      (zip labels scores))
    (zip labels scores).

Definition count (f : float -> float -> bool) (preds target : list float) : Z :=
  Z.of_nat (length (filter (fun '(p, l) => f p l = true) (zip preds target))).

Definition dice (average : string) (preds target : list float) : Res float :=
  if negb (length preds =? length target)%nat then Raise shape_error else
  let tp := count (fun p l => SFleb half p && positive l) preds target in
  let fp := count (fun p l => SFleb half p && negb (positive l)) preds target in
  let fn := count (fun p l => negb (SFleb half p) && positive l) preds target in
  Ok (if 2 * tp + fp + fn =? 0 then f0
      else div (of_Z (2 * tp)) (of_Z (2 * tp + fp + fn))).

Definition ap (y_true y_score : list float) : Res float :=
  if negb (length y_true =? length y_score)%nat then Raise shape_error else
  Ok (if separated y_true y_score then f1 else half).

Definition curve (y_true y_score : list float)
    : Res (list float * list float * list float) :=
  if negb (length y_true =? length y_score)%nat then Raise shape_error else
  Ok (if separated y_true y_score
      then ([f0; f0; f1], [f0; f1; f1], [S754_infinity false; f1; f0])
      else ([f0; f1], [f0; f1], [S754_infinity false; f0])).

(** The trapezoidal rule. *)
Fixpoint trapezoid (x y : list float) : float :=
  match x with
  | x0 :: xs =>
      match xs, y with
      | x1 :: _, y0 :: ((y1 :: _) as ys) =>
          add (mul (sub x1 x0) (div (add y0 y1) (of_Z 2))) (trapezoid xs ys)
      | _, _ => f0
      end
  | [] => f0
  end.

Definition area (x y : list float) : Res float :=
  if negb (length x =? length y)%nat then Raise shape_error
  else Ok (trapezoid x y).

Fixpoint dirname (p : string) : option string :=
  match p with
  | EmptyString => None
  | String c r =>
      match dirname r with
      | Some d => Some (String c d)
      | None => if decide (c = "/"%char) then Some EmptyString else None
      end
  end.

#[global] Instance lib : Library := {|
  Data := list Z;
  Aux := unit;
  Tensor := list float;
  Device := string;
  Tree := list float;
  Image := Figure;
  cpu := fun t => t;
  torch_cat := cat;
  from_numpy := fun a => a;
  kde_fit := fit_tree;
  kde_score_samples := log_dens;
  Dice := dice;
  average_precision_score := ap;
  roc_curve := curve;
  auc := area;
  format_float := format;
  path_join := fun a b => a +:+ "/" +:+ b;
  path_parent := fun p => default "." (dirname p);
  render := fun f => f;
|}.

(** A model that embeds a sample as its own value, with the single
    reference embedding [0.0]. *)
Definition net : Model :=
  {| forward := fun batch => Ok (map of_Z batch, tt);
     embeds := [of_Z 0] |}.

(** Two batches of four samples; the samples labelled [1] lie farther from
    the reference point than those labelled [0]. *)
Definition loader : list (list Z * list float) :=
  [ ([0; 1; 5; 6], map of_Z [0; 0; 1; 1]);
    ([-1; 0; 7; -6], map of_Z [0; 0; 1; 1]) ].

(** A world with the default output directory, and one without it. *)
Definition world : World :=
  {| w_heap := ∅; w_stdout := []; w_figures := [];
     w_fs := {[ "./results" := Dir ]} |}.
Definition bare_world : World :=
  {| w_heap := ∅; w_stdout := []; w_figures := []; w_fs := ∅ |}.

(** The scores and labels of [loader] under [net]. *)
Definition scores : list float := map of_Z [0; 1; 25; 36; 1; 0; 49; 36].
Definition labels : list float := map of_Z [0; 0; 1; 1; 0; 0; 1; 1].

Definition start : State := __init__ net "cpu" "tumor" loader None world.
Definition bare_start : State := __init__ net "cpu" "tumor" loader None bare_world.

(** The state the first run of [evaluate] from [start] leaves, and the
    Dice value of that run. *)
Definition finish : State := snd (evaluate start).
Definition dice_value : float := div (of_Z 8) (of_Z 10).
(** The second run, on the same Evaluator. *)
Definition finish2 : State := snd (evaluate finish).
(** The start without its output directory, and what a run leaves of it. *)
Definition bare_finish : State := snd (evaluate bare_start).

(** A model that refuses an empty batch. *)
Definition picky : Model :=
  {| forward := fun batch =>
       match batch with
       | [] => Raise (LibraryError "ValueError" "empty batch")
       | _ => Ok (map of_Z batch, tt)
       end;
     embeds := [of_Z 0] |}.

(** An Evaluator with an empty loader, and one whose only batch has three
    labels for two samples. *)
Definition empty_start : State := __init__ net "cpu" "tumor" [] None world.
Definition ragged_start : State :=
  __init__ net "cpu" "tumor" [([0; 1], map of_Z [0; 0; 1])] None world.
Definition ragged_finish : State := snd (evaluate ragged_start).

(** A model with another reference embedding, [5.0]; the Evaluator of
    [start] with it as [self.model]; and the run on that Evaluator after a
    first run with [net]. *)
Definition far_net : Model :=
  {| forward := fun batch => Ok (map of_Z batch, tt);
     embeds := [of_Z 5] |}.
Definition far_self : Evaluator :=
  {| model := far_net; device := "cpu"; pathology := "tumor";
     output_dir := "./results"; test_data_loader := loader;
     gde := gde (this start) |}.
Definition far_finish : State := snd (evaluate (with_self far_self finish)).
Definition far_dice : float := div (of_Z 6) (of_Z 11).

(** The Evaluator of [start] with a loader that yields the same eight
    samples as one batch. *)
Definition regrouped_self : Evaluator :=
  {| model := net; device := "cpu"; pathology := "tumor";
     output_dir := "./results";
     test_data_loader :=
       [ ([0; 1; 5; 6; -1; 0; 7; -6], map of_Z [0; 0; 1; 1; 0; 0; 1; 1]) ];
     gde := gde (this start) |}.

(** A second Evaluator, constructed after the first has run. *)
Definition second : State :=
  __init__ picky "cuda" "edema" loader (Some "./out") (world_of finish).

(** The methods other than [evaluate], called on a new Evaluator. *)
Definition idle_calls : list Call :=
  [ CallPredict [f1];
    CallCalculateRoc scores labels;
    CallPlotRoc [f0; f1] [f0; f1] f1 "tumor" "./results" ].

End Stub.


(** Two results of one call are the same result. *)
Ltac same_calls :=
  repeat match goal with
  | H1 : ?x = _, H2 : ?x = _ |- _ => rewrite H1 in H2; simplify_eq
  end.

(** * Properties *)

Section Properties.
Context {L : Library}.
Implicit Types (s : State) (k : KernelDensity) (e : exn).

(** ** Floats: negation reverses the order *)

Lemma SFcompare_opp (x y : float) :
  SFcompare (SFopp x) (SFopp y) = SFcompare y x.
Proof.
  destruct x as [[]|[]| |[] mx ex], y as [[]|[]| |[] my ey]; try reflexivity;
    cbn [SFopp SFcompare negb]; f_equal;
    rewrite (Z.compare_antisym ex ey);
    destruct (ex ?= ey)%Z eqn:E; cbn [CompOpp]; try reflexivity;
    rewrite (Pos.compare_cont_antisym _ _ Eq); cbn [CompOpp];
    try reflexivity; apply CompOpp_involutive.
Qed.

Lemma SFltb_opp (x y : float) : SFltb (SFopp x) (SFopp y) = SFltb y x.
Proof. unfold SFltb. now rewrite SFcompare_opp. Qed.

(** ** The monad *)

Lemma bind_unfold {A B} (m : M A) (f : A -> M B) s :
  (m ≫= f) s =
  match m s with
  | (Ok a, s1) => f a s1
  | (Raise e, s1) => (Raise e, s1)
  end.
Proof. reflexivity. Qed.

Lemma bind_Ok {A B} (m : M A) (f : A -> M B) s a s1 :
  m s = (Ok a, s1) -> (m ≫= f) s = f a s1.
Proof. intros H. rewrite bind_unfold, H. reflexivity. Qed.

Lemma bind_Raise {A B} (m : M A) (f : A -> M B) s e s1 :
  m s = (Raise e, s1) -> (m ≫= f) s = (Raise e, s1).
Proof. intros H. rewrite bind_unfold, H. reflexivity. Qed.

(** A run is its result and the state it leaves. *)
Lemma run_result {A} (m : M A) s (r : Res A) :
  fst (m s) = r -> m s = (r, snd (m s)).
Proof. intros <-. by destruct (m s). Qed.

(** ** [evolves] is a preorder, and every statement keeps to it *)

Lemma evolves_refl s : evolves s s.
Proof.
  split; try done.
  - intros l k H. exists k. done.
  - exists []. by rewrite app_nil_r.
Qed.

Lemma evolves_trans s1 s2 s3 : evolves s1 s2 -> evolves s2 s3 -> evolves s1 s3.
Proof.
  intros [T1 D1 P1 O1 [o1 S1] F1] [T2 D2 P2 O2 [o2 S2] F2]. split.
  - congruence.
  - congruence.
  - intros l k H. destruct (P1 l k H) as (k1 & H1 & K1 & B1).
    destruct (P2 l k1 H1) as (k2 & H2 & K2 & B2).
    exists k2. repeat split; congruence.
  - intros l Hl. rewrite O2, O1; congruence.
  - exists (o1 ++ o2). rewrite S2, S1. by rewrite app_assoc.
  - intros p. rewrite F2. apply F1.
Qed.

Lemma steady_bind {A B} self (m : M A) (f : A -> M B) :
  steady self m -> (forall a, steady self (f a)) -> steady self (m ≫= f).
Proof.
  intros Hm Hf s Hs. rewrite bind_unfold. specialize (Hm s Hs).
  destruct (m s) as [[a|e] s1]; cbn [snd] in *; [|done].
  eapply evolves_trans; [exact Hm | apply Hf].
  rewrite (ev_this _ _ Hm). exact Hs.
Qed.

Lemma evolves_touch s s' :
  this s' = this s -> heap s' = heap s -> stdout s' = stdout s ->
  fs s' = fs s -> evolves s s'.
Proof.
  intros Ht Hh Ho Hf. split; rewrite ?Ht, ?Hh, ?Ho, ?Hf; try done.
  - intros l k H. exists k. done.
  - exists []. by rewrite app_nil_r.
Qed.

Lemma steady_ret {A} self (a : A) : steady self (mret a : M A).
Proof. intros s _. apply evolves_refl. Qed.

Lemma steady_lift {A} self (r : Res A) : steady self (lift r).
Proof. intros s _. apply evolves_refl. Qed.

Lemma steady_get_self self : steady self get_self.
Proof. intros s _. apply evolves_refl. Qed.

Lemma steady_print self line : steady self (print line).
Proof.
  intros s _. split; try done.
  - intros l k H. exists k. done.
  - by exists [line].
Qed.

Lemma steady_plt self c : steady self (plt c).
Proof. intros s _. by apply evolves_touch. Qed.

Lemma steady_plt_close self : steady self plt_close.
Proof. intros s _. by apply evolves_touch. Qed.

Lemma steady_write_file self p img : steady self (write_file p img).
Proof.
  intros s _. unfold write_file.
  destruct (fs s !! path_parent p) as [[|i]|] eqn:Hd; try apply evolves_refl.
  assert (Hdir : fs s !! p <> Some Dir ->
    evolves s (set_fs (<[p := File img]> (fs s)) s)).
  { intros Hp. split; try done.
    - intros l k H. exists k. done.
    - exists []. by rewrite app_nil_r.
    - intros q. cbn [set_fs fs]. destruct (decide (p = q)) as [<-|Hne].
      + rewrite lookup_insert_eq. split; [discriminate | done].
      + by rewrite lookup_insert_ne. }
  destruct (fs s !! p) as [[|i]|] eqn:Hp; try apply evolves_refl;
    apply Hdir; discriminate.
Qed.

Lemma steady_plt_savefig self p : steady self (plt_savefig p).
Proof.
  intros s Hs. unfold plt_savefig. destruct (figures s) as [|f g] eqn:Hf.
  - eapply evolves_trans; [by apply (evolves_touch s (set_figures [[]] s))|].
    by apply (steady_write_file self).
  - by apply (steady_write_file self).
Qed.

Lemma steady_fit self X : steady self (fit (gde self) X).
Proof.
  intros s <-. unfold fit.
  destruct (heap s !! gde (this s)) as [k|] eqn:Hk; [|apply evolves_refl].
  destruct (kde_fit (kernel k) (bandwidth k) X) as [t|e]; [|apply evolves_refl].
  cbn [snd]. split; cbn [set_heap this heap stdout fs]; try done.
  - rewrite dom_insert_L. apply subseteq_union_1_L, singleton_subseteq_l.
    by apply elem_of_dom_2 in Hk.
  - intros l k0. destruct (decide (l = gde (this s))) as [->|Hne]; intros H.
    + rewrite lookup_insert_eq. exists (with_tree t k).
      replace k0 with k by congruence. done.
    + rewrite lookup_insert_ne by done. exists k0. done.
  - intros l Hl. by rewrite lookup_insert_ne.
  - exists []. by rewrite app_nil_r.
Qed.

Lemma steady_score_samples self l X : steady self (score_samples l X).
Proof.
  intros s _. unfold score_samples.
  destruct (heap s !! l) as [k|]; [|apply evolves_refl].
  destruct (tree_ k); apply evolves_refl.
Qed.

Lemma steady_predict self X : steady self (_predict X).
Proof.
  unfold _predict. apply steady_bind; [apply steady_get_self|]. intros self'.
  apply steady_bind; [apply steady_score_samples|]. intros d. apply steady_ret.
Qed.

Lemma steady_calculate_roc self scores labels :
  steady self (calculate_roc scores labels).
Proof.
  unfold calculate_roc. apply steady_bind; [apply steady_lift|].
  intros [[fpr tpr] thr]. apply steady_bind; [apply steady_lift|]. intros a.
  apply steady_bind; [apply steady_print|]. intros _. apply steady_ret.
Qed.

Lemma steady_plot_roc self fpr tpr a p d : steady self (plot_roc fpr tpr a p d).
Proof.
  unfold plot_roc.
  repeat (apply steady_bind; [apply steady_plt|]; intros _).
  apply steady_bind; [apply steady_plt_savefig|]. intros _.
  apply steady_plt_close.
Qed.

Lemma steady_evaluate self : steady self evaluate.
Proof.
  intros s Hs. unfold evaluate. rewrite bind_unfold. cbn [get_self].
  rewrite Hs. revert s Hs.
  apply steady_bind; [apply steady_lift|]. intros [labels embeds].
  apply steady_bind; [apply steady_lift|]. intros labels'.
  apply steady_bind; [apply steady_lift|]. intros embeds'.
  apply steady_bind; [apply steady_fit|]. intros _.
  apply steady_bind; [apply steady_predict|]. intros scores.
  apply steady_bind; [apply steady_lift|]. intros d.
  apply steady_bind; [apply steady_print|]. intros _.
  apply steady_bind; [apply steady_lift|]. intros a.
  apply steady_bind; [apply steady_print|]. intros _.
  apply steady_bind; [apply steady_calculate_roc|]. intros [[fpr tpr] r].
  apply steady_bind; [apply steady_plot_roc|]. intros _.
  apply steady_ret.
Qed.

Lemma evolves_after c s : evolves s (after c s).
Proof.
  destruct c; cbn [after].
  - by apply (steady_evaluate (this s)).
  - by apply (steady_predict (this s)).
  - by apply (steady_calculate_roc (this s)).
  - by apply (steady_plot_roc (this s)).
Qed.

Lemma evolves_after_all cs s : evolves s (after_all cs s).
Proof.
  revert s. induction cs as [|c cs IH]; intros s; cbn [after_all fold_left].
  - apply evolves_refl.
  - eapply evolves_trans; [apply (evolves_after c)|apply IH].
Qed.

(** ** What each method computes *)

Lemma predict_eq X s :
  _predict X s =
  match heap s !! gde (this s) with
  | None => (Raise (AttributeError "gde"), s)
  | Some k =>
      match tree_ k with
      | None => (Raise NotFittedError, s)
      | Some t =>
          match kde_score_samples (kernel k) (bandwidth k) t X with
          | Ok dens => (Ok (map SFopp dens), s)
          | Raise e => (Raise e, s)
          end
      end
  end.
Proof.
  unfold _predict. rewrite bind_unfold. cbn [get_self].
  rewrite bind_unfold. unfold score_samples.
  destruct (heap s !! gde (this s)) as [k|]; [|reflexivity].
  destruct (tree_ k) as [t|]; [|reflexivity].
  destruct (kde_score_samples _ _ _ _); reflexivity.
Qed.

Lemma calculate_roc_eq scores labels s :
  calculate_roc scores labels s =
  match roc scores labels with
  | Ok (fpr, tpr, a) =>
      (Ok (fpr, tpr, a), set_stdout (stdout s ++ [roc_line a]) s)
  | Raise e => (Raise e, s)
  end.
Proof.
  unfold calculate_roc, roc. rewrite bind_unfold. cbn [lift].
  destruct (roc_curve labels scores) as [[[fpr tpr] thr]|e]; [|reflexivity].
  cbn [mbind Res_bind]. rewrite bind_unfold. cbn [lift].
  destruct (auc fpr tpr) as [a|e]; reflexivity.
Qed.

Lemma plot_roc_eq fpr tpr a p d s :
  plot_roc fpr tpr a p d s =
  let fig := drawn (roc_commands fpr tpr a p) (figures s) in
  match save_error (fs s) (roc_path d p) with
  | Some e => (Raise e, set_figures (fig :: tail (figures s)) s)
  | None =>
      (Ok tt,
       {| this := this s; heap := heap s; stdout := stdout s;
          figures := tail (figures s);
          fs := <[roc_path d p := File (render fig)]> (fs s) |})
  end.
Proof.
  destruct s as [th hp out figs f].
  cbv [plot_roc mbind M_bind plt plt_savefig plt_close write_file
       set_figures set_fs draw drawn roc_commands roc_path save_error
       this heap stdout figures fs tail].
  destruct figs as [|g figs]; cbv beta iota zeta;
    repeat (destruct (_ !! _) as [[|?]|]); cbv beta iota zeta;
    rewrite <- ?app_assoc; reflexivity.
Qed.

Lemma evaluate_cases s k :
  heap s !! gde (this s) = Some k ->
  (exists e out s',
      library_raises (this s) k (fs s) e out /\
      evaluate s = (Raise e, s') /\
      stdout s' = stdout s ++ out /\ fs s' = fs s) \/
  (exists labels t dens d a fpr tpr r,
      log_density (this s) k = Ok (labels, t, dens) /\
      Dice "micro" (from_numpy (map SFopp dens)) labels = Ok d /\
      average_precision_score labels (from_numpy (map SFopp dens)) = Ok a /\
      roc (map SFopp dens) labels = Ok (fpr, tpr, r) /\
      save_error (fs s) (roc_path (output_dir (this s)) (pathology (this s)))
        = None /\
      evaluate s =
        (Ok (r, d, a),
         finished s k t d a r
           (drawn (roc_commands fpr tpr r (pathology (this s))) (figures s)))).
Proof.
  intros Hk. remember (evaluate s) as R eqn:HR. unfold evaluate in HR.
  rewrite bind_unfold in HR. cbn [get_self] in HR.
  rewrite bind_unfold in HR. cbn [lift] in HR.
  destruct (collect _ _ _ _) as [[ls es]|e] eqn:Hc.
  2:{ left. exists e, [], s. rewrite app_nil_r. repeat split; [|done].
      apply raises_scoring. unfold log_density, test_set. by rewrite Hc. }
  rewrite bind_unfold in HR. cbn [lift] in HR.
  destruct (torch_cat ls) as [labels|e] eqn:Hl.
  2:{ left. exists e, [], s. rewrite app_nil_r. repeat split; [|done].
      apply raises_scoring. unfold log_density, test_set. rewrite Hc.
      cbn [mbind Res_bind]. by rewrite Hl. }
  rewrite bind_unfold in HR. cbn [lift] in HR.
  destruct (torch_cat es) as [embeds|e] eqn:He.
  2:{ left. exists e, [], s. rewrite app_nil_r. repeat split; [|done].
      apply raises_scoring. unfold log_density, test_set. rewrite Hc.
      cbn [mbind Res_bind]. rewrite Hl. cbn [mbind Res_bind]. by rewrite He. }
  assert (Hts : test_set (this s) = Ok (labels, embeds)).
  { unfold test_set. rewrite Hc. cbn [mbind Res_bind]. rewrite Hl.
    cbn [mbind Res_bind]. by rewrite He. }
  clear Hc Hl He ls es.
  rewrite bind_unfold in HR. unfold fit at 1 in HR. rewrite Hk in HR.
  destruct (kde_fit _ _ _) as [t|e] eqn:Hf.
  2:{ left. exists e, [], s. rewrite app_nil_r. repeat split; [|done].
      apply raises_scoring. unfold log_density. rewrite Hts.
      cbn [mbind Res_bind]. by rewrite Hf. }
  rewrite bind_unfold, predict_eq in HR. cbn [set_heap heap this] in HR.
  rewrite lookup_insert_eq in HR.
  cbn [with_tree tree_ kernel bandwidth] in HR.
  destruct (kde_score_samples _ _ _ _) as [dens|e] eqn:Hd.
  2:{ left. eexists e, [], _. rewrite app_nil_r.
      split; [|split; [exact HR|done]].
      apply raises_scoring. unfold log_density. rewrite Hts.
      cbn [mbind Res_bind]. rewrite Hf. cbn [mbind Res_bind]. by rewrite Hd. }
  assert (Hld : log_density (this s) k = Ok (labels, t, dens)).
  { unfold log_density. rewrite Hts. cbn [mbind Res_bind]. rewrite Hf.
    cbn [mbind Res_bind]. by rewrite Hd. }
  clear Hts Hf Hd.
  rewrite bind_unfold in HR. cbn [lift] in HR.
  destruct (Dice _ _ _) as [d|e] eqn:HD.
  2:{ left. eexists e, [], _. rewrite app_nil_r.
      split; [|split; [exact HR|done]]. eapply raises_dice; eassumption. }
  rewrite bind_unfold in HR. cbn [print] in HR.
  rewrite bind_unfold in HR. cbn [lift] in HR.
  destruct (average_precision_score _ _) as [a|e] eqn:HA.
  2:{ left. eexists e, _, _. split; [eapply raises_ap; eassumption|].
      split; [exact HR|done]. }
  rewrite bind_unfold in HR. cbn [print] in HR.
  rewrite bind_unfold, calculate_roc_eq in HR.
  destruct (roc _ _) as [[[fpr tpr] r]|e] eqn:HC.
  2:{ left. eexists e, _, _. split; [eapply raises_roc; eassumption|].
      split; [exact HR|]. cbn [stdout set_stdout fs set_heap].
      by rewrite <- app_assoc. }
  rewrite bind_unfold, plot_roc_eq in HR.
  cbn [stdout set_stdout fs set_heap figures this heap] in HR.
  destruct (save_error _ _) as [e|] eqn:HS.
  { left. eexists e, _, _. split; [eapply raises_savefig; eassumption|].
    split; [exact HR|]. cbn [stdout set_stdout fs set_figures set_heap].
    by rewrite <- !app_assoc. }
  right. exists labels, t, dens, d, a, fpr, tpr, r.
  repeat (split; [assumption|]). cbn [mret M_ret] in HR. unfold finished.
  rewrite HR. by rewrite <- !app_assoc.
Qed.

Lemma evaluate_unallocated s :
  heap s !! gde (this s) = None -> exists e, evaluate s = (Raise e, s).
Proof.
  intros Hk. unfold evaluate. rewrite bind_unfold. cbn [get_self].
  rewrite bind_unfold. cbn [lift].
  destruct (collect _ _ _ _) as [[ls es]|e]; [|by exists e].
  rewrite bind_unfold. cbn [lift].
  destruct (torch_cat ls) as [labels|e]; [|by exists e].
  rewrite bind_unfold. cbn [lift].
  destruct (torch_cat es) as [embeds|e]; [|by exists e].
  rewrite bind_unfold. unfold fit at 1. rewrite Hk. by eexists.
Qed.

Lemma log_density_inv self k labels t dens :
  log_density self k = Ok (labels, t, dens) ->
  exists embeds,
    test_set self = Ok (labels, embeds) /\
    kde_fit (kernel k) (bandwidth k) (cpu (model_embeds (model self))) = Ok t /\
    kde_score_samples (kernel k) (bandwidth k) t embeds = Ok dens.
Proof.
  unfold log_density. destruct (test_set self) as [[l e]|]; [|discriminate].
  cbn [mbind Res_bind]. destruct (kde_fit _ _ _) as [t'|]; [|discriminate].
  cbn [mbind Res_bind].
  destruct (kde_score_samples _ _ _ _) as [dens'|] eqn:Hd; [|discriminate].
  cbn [mret Res_ret]. intros [= -> -> ->]. by exists e.
Qed.

(** The parameters of the estimator are all [log_density] reads of it. *)
Lemma log_density_params self k1 k2 :
  kernel k1 = kernel k2 -> bandwidth k1 = bandwidth k2 ->
  log_density self k1 = log_density self k2.
Proof. unfold log_density. by intros -> ->. Qed.

Lemma library_raises_unique self k f e1 o1 e2 o2 :
  library_raises self k f e1 o1 -> library_raises self k f e2 o2 ->
  e1 = e2 /\ o1 = o2.
Proof.
  intros H1 H2. destruct H1; destruct H2; same_calls; done.
Qed.

Lemma library_raises_params self k1 k2 f e out :
  kernel k1 = kernel k2 -> bandwidth k1 = bandwidth k2 ->
  library_raises self k1 f e out -> library_raises self k2 f e out.
Proof.
  intros Hk Hb H. pose proof (log_density_params self k1 k2 Hk Hb) as E.
  destruct H; rewrite E in *;
    eauto using raises_scoring, raises_dice, raises_ap, raises_roc,
      raises_savefig.
Qed.

Lemma evaluate_Ok_inv s r d a s' :
  evaluate s = (Ok (r, d, a), s') ->
  exists k labels t dens fpr tpr,
    heap s !! gde (this s) = Some k /\
    log_density (this s) k = Ok (labels, t, dens) /\
    Dice "micro" (from_numpy (map SFopp dens)) labels = Ok d /\
    average_precision_score labels (from_numpy (map SFopp dens)) = Ok a /\
    roc (map SFopp dens) labels = Ok (fpr, tpr, r) /\
    save_error (fs s) (roc_path (output_dir (this s)) (pathology (this s)))
      = None /\
    s' = finished s k t d a r
           (drawn (roc_commands fpr tpr r (pathology (this s))) (figures s)).
Proof.
  intros H. destruct (heap s !! gde (this s)) as [k|] eqn:Hk.
  2:{ destruct (evaluate_unallocated s Hk) as [e He]. congruence. }
  destruct (evaluate_cases s k Hk) as
    [(e & out & s1 & _ & He & _)
    |(labels & t & dens & d' & a' & fpr & tpr & r' & Hl & HD & HA & HR & HS & He)].
  - congruence.
  - rewrite He in H. injection H as -> -> -> <-.
    by exists k, labels, t, dens, fpr, tpr.
Qed.

Lemma evaluate_Raise_inv s k e s' :
  heap s !! gde (this s) = Some k ->
  evaluate s = (Raise e, s') ->
  exists out, library_raises (this s) k (fs s) e out /\
    stdout s' = stdout s ++ out /\ fs s' = fs s.
Proof.
  intros Hk H.
  destruct (evaluate_cases s k Hk) as
    [(e1 & out & s1 & Hr & He & Ho & Hf)
    |(labels & t & dens & d' & a' & fpr & tpr & r' & _ & _ & _ & _ & _ & He)].
  - rewrite He in H. injection H as -> ->. by exists out.
  - congruence.
Qed.

Lemma evaluate_raises s k e out :
  heap s !! gde (this s) = Some k ->
  library_raises (this s) k (fs s) e out ->
  exists s', evaluate s = (Raise e, s') /\
    stdout s' = stdout s ++ out /\ fs s' = fs s.
Proof.
  intros Hk H.
  destruct (evaluate_cases s k Hk) as
    [(e1 & out1 & s1 & Hr & He & Ho & Hf)
    |(labels & t & dens & d & a & fpr & tpr & r & Hl & HD & HA & HR & HS & He)].
  - destruct (library_raises_unique _ _ _ _ _ _ _ H Hr) as [-> ->].
    by exists s1.
  - exfalso. destruct H; same_calls.
Qed.

(** What [evaluate] returns is a function of the attributes of [self] and
    of the parameters of its estimator. *)
Lemma evaluate_result_determined s1 s2 k1 k2 res1 res2 s1' s2' :
  this s1 = this s2 ->
  heap s1 !! gde (this s1) = Some k1 ->
  heap s2 !! gde (this s2) = Some k2 ->
  kernel k1 = kernel k2 -> bandwidth k1 = bandwidth k2 ->
  evaluate s1 = (Ok res1, s1') -> evaluate s2 = (Ok res2, s2') ->
  res1 = res2.
Proof.
  intros Ht H1 H2 Hk Hb E1 E2.
  destruct res1 as [[r1 d1] a1], res2 as [[r2 d2] a2].
  apply evaluate_Ok_inv in E1
    as (k1' & l1 & t1 & n1 & fpr1 & tpr1 & K1 & L1 & D1 & A1 & R1 & _).
  apply evaluate_Ok_inv in E2
    as (k2' & l2 & t2 & n2 & fpr2 & tpr2 & K2 & L2 & D2 & A2 & R2 & _).
  simplify_eq. rewrite Ht, (log_density_params _ k1 k2 Hk Hb) in L1.
  same_calls. done.
Qed.

(** On an Evaluator the constructor made, whatever was called since, the
    estimator is the Gaussian one of bandwidth 1. *)
Lemma constructed_estimator m dv pth ld od (w : World) cs k :
  let s := after_all cs (__init__ m dv pth ld od w) in
  heap s !! gde (this s) = Some k ->
  kernel k = "gaussian" /\ bandwidth k = 1.
Proof.
  intros s Hk. set (s0 := __init__ m dv pth ld od w) in *.
  pose proof (evolves_after_all cs s0) as Hev. fold s in Hev.
  assert (H0 : heap s0 !! gde (this s0) = Some (gaussian_kde None))
    by apply lookup_insert_eq.
  destruct (ev_params _ _ Hev _ _ H0) as (k' & Hk' & Kk & Bk).
  rewrite (ev_this _ _ Hev) in Hk. by replace k with k' by congruence.
Qed.

Lemma lookup_map_opp (dens : list float) i x :
  dens !! i = Some x -> map SFopp dens !! i = Some (SFopp x).
Proof.
  revert i. induction dens as [|y dens IH]; intros [|i] H; try done.
  - by injection H as ->.
  - by apply IH.
Qed.

(** ** The whole of [evaluate], stage by stage *)

Lemma test_set_inv self labels embeds :
  test_set self = Ok (labels, embeds) ->
  exists ls es,
    collect (model self) (test_data_loader self) [] [] = Ok (ls, es) /\
    torch_cat ls = Ok labels /\ torch_cat es = Ok embeds.
Proof.
  unfold test_set.
  destruct (collect _ _ _ _) as [[ls es]|]; [|discriminate].
  cbn [mbind Res_bind]. destruct (torch_cat ls) as [l|] eqn:Hl; [|discriminate].
  cbn [mbind Res_bind]. destruct (torch_cat es) as [e|] eqn:He; [|discriminate].
  intros [= -> ->]. by exists ls, es.
Qed.

Lemma evaluate_eq s k :
  heap s !! gde (this s) = Some k ->
  evaluate s =
  match test_set (this s) with
  | Raise e => (Raise e, s)
  | Ok (labels, embeds) =>
    match kde_fit (kernel k) (bandwidth k)
            (cpu (model_embeds (model (this s)))) with
    | Raise e => (Raise e, s)
    | Ok t =>
      let s1 := set_heap (<[gde (this s) := with_tree t k]> (heap s)) s in
      match kde_score_samples (kernel k) (bandwidth k) t embeds with
      | Raise e => (Raise e, s1)
      | Ok dens =>
        let scores := map SFopp dens in
        match Dice "micro" (from_numpy scores) labels with
        | Raise e => (Raise e, s1)
        | Ok d =>
          let s2 := set_stdout (stdout s ++ [dice_line d]) s1 in
          match average_precision_score labels (from_numpy scores) with
          | Raise e => (Raise e, s2)
          | Ok a =>
            let s3 := set_stdout (stdout s ++ [dice_line d; ap_line a]) s1 in
            match roc scores labels with
            | Raise e => (Raise e, s3)
            | Ok (fpr, tpr, r) =>
              let fig := drawn (roc_commands fpr tpr r (pathology (this s)))
                           (figures s) in
              match save_error (fs s)
                      (roc_path (output_dir (this s)) (pathology (this s)))
              with
              | Some e =>
                  (Raise e,
                   {| this := this s;
                      heap := <[gde (this s) := with_tree t k]> (heap s);
                      stdout := stdout s ++
                                [dice_line d; ap_line a; roc_line r];
                      figures := fig :: tail (figures s);
                      fs := fs s |})
              | None => (Ok (r, d, a), finished s k t d a r fig)
              end
            end
          end
        end
      end
    end
  end.
Proof.
  intros Hk. unfold evaluate, test_set. rewrite bind_unfold. cbn [get_self].
  rewrite bind_unfold. cbn [lift].
  destruct (collect _ _ _ _) as [[ls es]|e]; [|reflexivity].
  cbn [mbind Res_bind]. rewrite bind_unfold. cbn [lift].
  destruct (torch_cat ls) as [labels|e]; [|reflexivity].
  cbn [mbind Res_bind]. rewrite bind_unfold. cbn [lift].
  destruct (torch_cat es) as [embeds|e]; [|reflexivity].
  cbn [mbind Res_bind mret Res_ret].
  rewrite bind_unfold. unfold fit at 1. rewrite Hk.
  destruct (kde_fit _ _ _) as [t|e]; [|reflexivity].
  rewrite bind_unfold, predict_eq. cbn [set_heap heap this].
  rewrite lookup_insert_eq. cbn [with_tree tree_ kernel bandwidth].
  destruct (kde_score_samples _ _ _ _) as [dens|e]; [|reflexivity].
  cbv zeta. rewrite bind_unfold. cbn [lift].
  destruct (Dice _ _ _) as [d|e]; [|reflexivity].
  rewrite bind_unfold. cbn [print]. rewrite bind_unfold. cbn [lift].
  destruct (average_precision_score _ _) as [a|e]; [|reflexivity].
  rewrite bind_unfold. cbn [print]. rewrite bind_unfold, calculate_roc_eq.
  cbn [stdout set_stdout]. rewrite <- !app_assoc. cbn [app].
  destruct (roc _ _) as [[[fpr tpr] r]|e]; [|reflexivity].
  rewrite bind_unfold, plot_roc_eq.
  cbn [stdout set_stdout fs set_heap figures this heap].
  rewrite <- !app_assoc. cbn [app].
  destruct (save_error _ _) as [e|]; reflexivity.
Qed.

(** ** The claims *)

(** C1. Whenever [evaluate] returns, the estimator of the Evaluator (the
    Gaussian one of bandwidth 1, on an Evaluator the constructor made) was
    fitted on the reference embeddings [model.embeds] of the model, not on
    the test embeddings; the score of every test sample is the negation of
    the log-density that fitted estimator gives it, and these negated values
    are what Dice, average precision and the ROC routine receive.  Hence one
    sample scores higher than another exactly when its log-density is
    lower. *)
Theorem evaluate_scores_negate_log_density s r d a s' :
  evaluate s = (Ok (r, d, a), s') ->
  exists k labels embeds t dens,
    heap s !! gde (this s) = Some k /\
    (forall m dv pth ld od w cs,
        s = after_all cs (__init__ m dv pth ld od w) ->
        kernel k = "gaussian" /\ bandwidth k = 1) /\
    test_set (this s) = Ok (labels, embeds) /\
    kde_fit (kernel k) (bandwidth k) (cpu (model_embeds (model (this s))))
      = Ok t /\
    kde_score_samples (kernel k) (bandwidth k) t embeds = Ok dens /\
    Dice "micro" (from_numpy (map SFopp dens)) labels = Ok d /\
    average_precision_score labels (from_numpy (map SFopp dens)) = Ok a /\
    (exists fpr tpr, roc (map SFopp dens) labels = Ok (fpr, tpr, r)) /\
    forall i j x y, dens !! i = Some x -> dens !! j = Some y ->
      map SFopp dens !! i = Some (SFopp x) /\
      map SFopp dens !! j = Some (SFopp y) /\
      SFltb (SFopp y) (SFopp x) = SFltb x y.
Proof.
  intros H. apply evaluate_Ok_inv in H
    as (k & labels & t & dens & fpr & tpr & Hk & Hl & HD & HA & HR & _ & _).
  apply log_density_inv in Hl as (embeds & Hts & Hf & Hd).
  exists k, labels, embeds, t, dens. split; [assumption|]. split.
  { intros m dv pth ld od w cs ->.
    by apply (constructed_estimator m dv pth ld od w cs). }
  repeat (split; [assumption|]).
  split; [by exists fpr, tpr|]. intros i j x y Hi Hj.
  repeat split; auto using lookup_map_opp, SFltb_opp.
Qed.

(** C2. A run of [evaluate] that returns gives the triple (ROC AUC, Dice
    score, average precision), in this order, and has printed exactly three
    lines: the Dice score, the average precision and the ROC AUC, in the
    order computed, each value formatted with [.3f]. *)
Theorem evaluate_returns_triple_and_prints s r d a s' :
  evaluate s = (Ok (r, d, a), s') ->
  (exists k labels t dens fpr tpr thr,
      heap s !! gde (this s) = Some k /\
      log_density (this s) k = Ok (labels, t, dens) /\
      roc_curve labels (map SFopp dens) = Ok (fpr, tpr, thr) /\
      auc fpr tpr = Ok r /\
      Dice "micro" (from_numpy (map SFopp dens)) labels = Ok d /\
      average_precision_score labels (from_numpy (map SFopp dens)) = Ok a) /\
  stdout s' = stdout s ++
    [ "Dice score: " +:+ format_float ".3f" d;
      "Average precision: " +:+ format_float ".3f" a;
      "ROC AUC: " +:+ format_float ".3f" r ].
Proof.
  intros H. apply evaluate_Ok_inv in H
    as (k & labels & t & dens & fpr & tpr & Hk & Hl & HD & HA & HR & _ & ->).
  split; [|reflexivity].
  unfold roc in HR.
  destruct (roc_curve _ _) as [[[fpr' tpr'] thr]|] eqn:HC; [|discriminate].
  cbn [mbind Res_bind] in HR.
  destruct (auc fpr' tpr') as [r'|] eqn:HU; [|discriminate].
  injection HR as -> -> ->. by exists k, labels, t, dens, fpr, tpr, thr.
Qed.


(** C6, as amended.  When [evaluate] returns, nothing of the run is kept but
    the fit: the attributes of the Evaluator are as before and the heap
    differs only at the estimator [self.gde], which stays fitted on
    [model.embeds].  Every call refits it before scoring, so the tree a
    former call left has no influence on what a later call returns. *)
Theorem evaluate_leaves_estimator_fitted s r d a s' :
  evaluate s = (Ok (r, d, a), s') ->
  exists k t,
    heap s !! gde (this s) = Some k /\
    kde_fit (kernel k) (bandwidth k) (cpu (model_embeds (model (this s))))
      = Ok t /\
    this s' = this s /\
    heap s' = <[gde (this s) := with_tree t k]> (heap s) /\
    forall s2 k2 res s2',
      this s2 = this s -> heap s2 !! gde (this s2) = Some k2 ->
      kernel k2 = kernel k -> bandwidth k2 = bandwidth k ->
      evaluate s2 = (Ok res, s2') -> res = (r, d, a).
Proof.
  intros H. pose proof H as H0. apply evaluate_Ok_inv in H
    as (k & labels & t & dens & fpr & tpr & Hk & Hl & _ & _ & _ & _ & ->).
  apply log_density_inv in Hl as (embeds & _ & Hf & _).
  exists k, t. repeat (split; [done|]).
  intros s2 k2 res s2' Ht H2 Hkk Hb E2.
  by eapply (evaluate_result_determined s2 s k2 k res (r, d, a)).
Qed.

(** C7, as amended.  What [calculate_roc] returns depends on its arguments
    [scores] and [labels] only: it is the false-positive and true-positive
    rates of [roc_curve(labels, scores)] together with [auc] of the two, with
    no thresholding of its own, and whatever either routine raises is
    raised.  The Evaluator is left as it was, but on success one line,
    ["ROC AUC: "] and the area with three decimals, is printed. *)
Theorem calculate_roc_delegates scores labels s :
  calculate_roc scores labels s =
  match roc_curve labels scores with
  | Ok (fpr, tpr, _) =>
      match auc fpr tpr with
      | Ok roc_auc =>
          (Ok (fpr, tpr, roc_auc),
           set_stdout
             (stdout s ++ ["ROC AUC: " +:+ format_float ".3f" roc_auc]) s)
      | Raise e => (Raise e, s)
      end
  | Raise e => (Raise e, s)
  end.
Proof.
  rewrite calculate_roc_eq. unfold roc.
  destruct (roc_curve labels scores) as [[[fpr tpr] thr]|e]; [|reflexivity].
  cbn [mbind Res_bind]. destruct (auc fpr tpr); reflexivity.
Qed.

(** C8. [evaluate] handles nothing.  On an Evaluator whose estimator
    exists: when an external call raises (the model, [torch.cat], the
    estimator, Dice, average precision, the ROC routines, [savefig]),
    [evaluate] raises that same exception, having printed the metric lines
    that precede the call and nothing else, and having written no file;
    every exception that leaves [evaluate] is one such call's; and a run
    that returns met no raising call. *)
Theorem evaluate_propagates s k :
  heap s !! gde (this s) = Some k ->
  (forall e out, library_raises (this s) k (fs s) e out ->
     exists s', evaluate s = (Raise e, s') /\
       stdout s' = stdout s ++ out /\ fs s' = fs s) /\
  (forall e s', evaluate s = (Raise e, s') ->
     exists out, library_raises (this s) k (fs s) e out /\
       stdout s' = stdout s ++ out /\ fs s' = fs s) /\
  (forall res s', evaluate s = (Ok res, s') ->
     forall e out, ~ library_raises (this s) k (fs s) e out).
Proof.
  intros Hk. repeat split.
  - intros e out H. by apply (evaluate_raises s k).
  - intros e s' H. by apply (evaluate_Raise_inv s k).
  - intros res s' H e out Hr.
    destruct (evaluate_raises s k e out Hk Hr) as (s1 & E & _). congruence.
Qed.

(** C9. The constructor makes one estimator, a fresh object with kernel
    ["gaussian"] and bandwidth [1] whatever the arguments, not yet fitted.
    After any sequence of method calls [self.gde] is still that object, no
    other estimator has been made, and its kernel and bandwidth are
    unchanged; a call of [evaluate] that returns has refitted that object
    on [model.embeds].  The fit is made anew by every call, whatever tree
    the estimator holds: with the attributes rebound in between (another
    model, say), a call that returns leaves the tree fitted on the
    reference embeddings of the model of that call, and a call whose fit
    raises raises, stored tree or not. *)
Theorem estimator_made_once_refit_each_call
    m dv pth ld od (w : World) (cs : list Call) :
  let s0 := __init__ m dv pth ld od w in
  let l := gde (this s0) in
  let s := after_all cs s0 in
  (l ∉ dom (w_heap w)) /\
  heap s0 !! l = Some (gaussian_kde None) /\
  gde (this s) = l /\
  dom (heap s) = dom (heap s0) /\
  (exists t, heap s !! l = Some (gaussian_kde t)) /\
  (forall res s', evaluate s = (Ok res, s') ->
     exists t, kde_fit "gaussian" 1 (cpu (model_embeds m)) = Ok t /\
       gde (this s') = l /\
       dom (heap s') = dom (heap s0) /\
       heap s' !! l = Some (gaussian_kde (Some t))) /\
  (forall self' res s', gde self' = l ->
     evaluate (with_self self' s) = (Ok res, s') ->
     exists t,
       kde_fit "gaussian" 1 (cpu (model_embeds (model self'))) = Ok t /\
       gde (this s') = l /\
       dom (heap s') = dom (heap s0) /\
       heap s' !! l = Some (gaussian_kde (Some t))) /\
  (forall self' labels embeds e, gde self' = l ->
     test_set self' = Ok (labels, embeds) ->
     kde_fit "gaussian" 1 (cpu (model_embeds (model self'))) = Raise e ->
     evaluate (with_self self' s) = (Raise e, with_self self' s)).
Proof.
  intros s0 l s.
  assert (H0 : heap s0 !! l = Some (gaussian_kde None))
    by apply lookup_insert_eq.
  pose proof (evolves_after_all cs s0) as Hev. fold s in Hev.
  destruct (ev_params _ _ Hev l _ H0) as (k & Hk & Kk & Bk).
  assert (Hgk : k = gaussian_kde (tree_ k)).
  { destruct k as [kn bw tr]. cbn in Kk, Bk. by subst. }
  assert (Hg : gde (this s) = l).
  { by rewrite (ev_this _ _ Hev). }
  assert (Hrefit : forall self' res s', gde self' = l ->
     evaluate (with_self self' s) = (Ok res, s') ->
     exists t,
       kde_fit "gaussian" 1 (cpu (model_embeds (model self'))) = Ok t /\
       gde (this s') = l /\
       dom (heap s') = dom (heap s0) /\
       heap s' !! l = Some (gaussian_kde (Some t))).
  { intros self' [[r d] a] s' Hl H. apply evaluate_Ok_inv in H
      as (k' & labels & t & dens & fpr & tpr & Hk' & Hld & _ & _ & _ & _ & ->).
    apply log_density_inv in Hld as (embeds & _ & Hf & _).
    cbn [with_self this heap] in Hk', Hf. rewrite Hl in Hk'.
    replace k' with k in * by congruence.
    rewrite Kk, Bk in Hf. exists t.
    split; [exact Hf|]. cbn [finished with_self this heap]. rewrite Hl.
    split; [reflexivity|]. split.
    - rewrite dom_insert_L, <- (ev_dom _ _ Hev).
      apply subseteq_union_1_L, singleton_subseteq_l.
      by apply elem_of_dom_2 in Hk.
    - rewrite lookup_insert_eq. by rewrite Hgk. }
  split; [apply is_fresh|]. split; [exact H0|]. split; [exact Hg|].
  split; [exact (ev_dom _ _ Hev)|]. split; [exists (tree_ k); congruence|].
  split; [|split; [exact Hrefit|]].
  - intros res s' H.
    destruct (Hrefit (this s) res s' Hg) as (t & Hf & Hrest).
    { by destruct s. }
    exists t. split; [|exact Hrest].
    by rewrite (ev_this _ _ Hev) in Hf.
  - intros self' labels embeds e Hl Hts Hf.
    rewrite (evaluate_eq (with_self self' s) k).
    2:{ cbn [with_self this heap]. by rewrite Hl. }
    cbn [with_self this]. rewrite Hts, Kk, Bk.
    cbn [gaussian_kde kernel bandwidth]. by rewrite Hf.
Qed.

(** C10. Two runs of [evaluate] on the same Evaluator (the same attributes,
    hence the same model, reference embeddings and test batches, and an
    estimator with the same kernel and bandwidth) that both return, return
    equal triples, whatever else differs between the two states; and after
    each run [model], [device], [pathology], [test_data_loader] and
    [output_dir] are what they were before it. *)
Theorem evaluate_deterministic s1 s2 k1 k2 res1 res2 s1' s2' :
  this s1 = this s2 ->
  heap s1 !! gde (this s1) = Some k1 ->
  heap s2 !! gde (this s2) = Some k2 ->
  kernel k1 = kernel k2 -> bandwidth k1 = bandwidth k2 ->
  evaluate s1 = (Ok res1, s1') -> evaluate s2 = (Ok res2, s2') ->
  res1 = res2 /\
  forall s s', (s, s') = (s1, s1') \/ (s, s') = (s2, s2') ->
    model (this s') = model (this s) /\
    device (this s') = device (this s) /\
    pathology (this s') = pathology (this s) /\
    test_data_loader (this s') = test_data_loader (this s) /\
    output_dir (this s') = output_dir (this s).
Proof.
  intros Ht H1 H2 Hk Hb E1 E2. split.
  - by apply (evaluate_result_determined s1 s2 k1 k2 res1 res2 s1' s2').
  - intros s s' [[= -> ->]|[= -> ->]].
    + pose proof (steady_evaluate (this s1) s1 eq_refl) as Hev.
      rewrite E1 in Hev. cbn [snd] in Hev. by rewrite (ev_this _ _ Hev).
    + pose proof (steady_evaluate (this s2) s2 eq_refl) as Hev.
      rewrite E2 in Hev. cbn [snd] in Hev. by rewrite (ev_this _ _ Hev).
Qed.

Lemma evaluate_test_set_raise s e :
  test_set (this s) = Raise e -> evaluate s = (Raise e, s).
Proof.
  unfold evaluate, test_set. rewrite bind_unfold. cbn [get_self].
  rewrite bind_unfold. cbn [lift].
  destruct (collect _ _ _ _) as [[ls es]|e']; [|by intros [= ->]].
  cbn [mbind Res_bind]. rewrite bind_unfold. cbn [lift].
  destruct (torch_cat ls) as [labels|e']; [|by intros [= ->]].
  cbn [mbind Res_bind]. rewrite bind_unfold. cbn [lift].
  destruct (torch_cat es) as [embeds|e']; [|by intros [= ->]].
  discriminate.
Qed.

Lemma save_error_after_write (f : gmap string Node) p img :
  save_error f p = None -> save_error (<[p := File img]> f) p = None.
Proof.
  unfold save_error.
  destruct (f !! path_parent p) as [[|i]|] eqn:Hd; try discriminate.
  destruct (decide (path_parent p = p)) as [E|E].
  - rewrite E in Hd. rewrite Hd. discriminate.
  - intros _. rewrite lookup_insert_ne, Hd by done.
    by rewrite lookup_insert_eq.
Qed.

Lemma SFopp_involutive (x : float) : SFopp (SFopp x) = x.
Proof. destruct x as [[]|[]| |[] m e]; reflexivity. Qed.

Lemma map_opp_involutive (l : list float) : map SFopp (map SFopp l) = l.
Proof.
  induction l as [|x l IH]; [done|].
  cbn [map]. by rewrite SFopp_involutive, IH.
Qed.

(** *** The loop *)

Lemma collect_app m (bs : list (Data * Tensor)) (outs : list (Tensor * Aux))
    ls es :
  Forall2 (fun b o => forward m b.1 = Ok o) bs outs ->
  collect m bs ls es =
    Ok (ls ++ map (fun b => cpu b.2) bs, es ++ map (fun o => cpu o.1) outs).
Proof.
  intros H. revert ls es.
  induction H as [|[data label] [embed aux] bs outs Hf _ IH]; intros ls es;
    cbn [collect map].
  - by rewrite !app_nil_r.
  - cbn [fst] in Hf. rewrite Hf. cbn [mbind Res_bind fst snd].
    by rewrite IH, <- !app_assoc.
Qed.

Lemma collect_stops m (bs1 : list (Data * Tensor))
    (outs : list (Tensor * Aux)) data label bs2 e ls es :
  Forall2 (fun b o => forward m b.1 = Ok o) bs1 outs ->
  forward m data = Raise e ->
  collect m (bs1 ++ (data, label) :: bs2) ls es = Raise e.
Proof.
  intros H He. revert ls es.
  induction H as [|[data' label'] [embed aux] bs outs Hf _ IH]; intros ls es;
    cbn [collect app].
  - by rewrite He.
  - cbn [fst] in Hf. rewrite Hf. cbn [mbind Res_bind]. apply IH.
Qed.

(** *** The methods other than [evaluate] *)

Lemma after_other_heap c s :
  is_evaluate c = false ->
  this (after c s) = this s /\ heap (after c s) = heap s.
Proof.
  destruct c as [|X|scores labels|fpr tpr a p d]; [discriminate| | |];
    intros _; cbn [after].
  - rewrite predict_eq. destruct (heap s !! gde (this s)) as [k|]; [|done].
    destruct (tree_ k); [|done]. by destruct (kde_score_samples _ _ _ _).
  - rewrite calculate_roc_eq. by destruct (roc _ _) as [[[? ?] ?]|].
  - rewrite plot_roc_eq. cbv zeta. by destruct (save_error _ _).
Qed.

Lemma after_all_other_heap cs s :
  forallb (fun c => negb (is_evaluate c)) cs = true ->
  this (after_all cs s) = this s /\ heap (after_all cs s) = heap s.
Proof.
  revert s. induction cs as [|c cs IH]; intros s H; [done|].
  cbn [forallb] in H. apply andb_prop in H as [Hc H].
  apply negb_true_iff in Hc. cbn [after_all fold_left].
  destruct (after_other_heap c s Hc) as [T E].
  destruct (IH (after c s) H) as [T' E']. unfold after_all in *.
  split; congruence.
Qed.

(** *** [self.device] is not read *)

Lemma blind_bind {A B} (m : M A) (f : A -> M B) :
  device_blind m -> (forall a, device_blind (f a)) -> device_blind (m ≫= f).
Proof.
  intros Hm Hf d s. rewrite !bind_unfold, Hm.
  destruct (m s) as [[a|e] s1]; cbn [fst snd]; [apply Hf|reflexivity].
Qed.

Lemma blind_ret {A} (a : A) : device_blind (mret a : M A).
Proof. by intros d s. Qed.

Lemma blind_lift {A} (r : Res A) : device_blind (lift r).
Proof. by intros d s. Qed.

Lemma blind_print line : device_blind (print line).
Proof. by intros d s. Qed.

Lemma blind_fit l X : device_blind (fit l X).
Proof.
  intros d s. unfold fit. cbn [set_device heap].
  destruct (heap s !! l) as [k|]; [|done]. by destruct (kde_fit _ _ _).
Qed.

Lemma blind_predict X : device_blind (_predict X).
Proof.
  intros d s. rewrite !predict_eq. cbn [set_device heap this gde].
  destruct (heap s !! gde (this s)) as [k|]; [|done].
  destruct (tree_ k); [|done]. by destruct (kde_score_samples _ _ _ _).
Qed.

Lemma blind_calculate_roc scores labels :
  device_blind (calculate_roc scores labels).
Proof.
  intros d s. rewrite !calculate_roc_eq.
  by destruct (roc _ _) as [[[? ?] ?]|].
Qed.

Lemma blind_plot_roc fpr tpr a p dir : device_blind (plot_roc fpr tpr a p dir).
Proof.
  intros d s. rewrite !plot_roc_eq. cbv zeta. cbn [set_device fs figures].
  by destruct (save_error _ _).
Qed.

(** ** Further properties of the methods *)

(** X1. When the model returns on every batch, the loop of [evaluate]
    gathers one label tensor and one embedding per batch, each moved to the
    CPU, in the order the loader yields the batches, so that the two lists
    are aligned index by index. *)
Theorem collect_in_order m (bs : list (Data * Tensor))
    (outs : list (Tensor * Aux)) :
  Forall2 (fun b o => forward m b.1 = Ok o) bs outs ->
  collect m bs [] [] =
    Ok (map (fun b => cpu b.2) bs, map (fun o => cpu o.1) outs).
Proof. intros H. by rewrite (collect_app m bs outs [] [] H). Qed.

(** X2. The loop stops at the first batch on which the model raises: what
    it raises is raised, whatever the batches after it are, and nothing of
    what was gathered is returned. *)
Theorem collect_stops_at_first_failure m (bs1 : list (Data * Tensor))
    (outs : list (Tensor * Aux)) data label bs2 e :
  Forall2 (fun b o => forward m b.1 = Ok o) bs1 outs ->
  forward m data = Raise e ->
  collect m (bs1 ++ (data, label) :: bs2) [] [] = Raise e.
Proof. apply collect_stops. Qed.

(** X3. A failure while the test set is gathered (the model on a batch, or
    [torch.cat] on the labels or on the embeddings) leaves everything as it
    was: the estimator is not refitted, nothing is printed, no figure is
    opened and no file is written. *)
Theorem evaluate_gathering_failure_changes_nothing s e :
  test_set (this s) = Raise e -> evaluate s = (Raise e, s).
Proof. apply evaluate_test_set_raise. Qed.

(** X4. With an empty test loader the model is never called: [torch.cat] is
    handed the empty list, and when it raises on it [evaluate] raises the
    same with the state untouched. *)
Theorem evaluate_empty_loader s e :
  test_data_loader (this s) = [] -> torch_cat [] = Raise e ->
  collect (model (this s)) (test_data_loader (this s)) [] [] = Ok ([], []) /\
  evaluate s = (Raise e, s).
Proof.
  intros Hl Hc. split; [by rewrite Hl|].
  apply evaluate_test_set_raise. unfold test_set. rewrite Hl.
  cbn [collect mbind Res_bind]. by rewrite Hc.
Qed.

(** X5. [evaluate] is not all-or-nothing.  Once the fit on [model.embeds]
    has succeeded, a run that then raises (in scoring, in a metric or in
    saving the plot) leaves the estimator refitted all the same, the
    attributes and every other estimator as they were, and no file
    written. *)
Theorem evaluate_failure_keeps_the_fit s k labels embeds t e s' :
  heap s !! gde (this s) = Some k ->
  test_set (this s) = Ok (labels, embeds) ->
  kde_fit (kernel k) (bandwidth k) (cpu (model_embeds (model (this s))))
    = Ok t ->
  evaluate s = (Raise e, s') ->
  this s' = this s /\
  heap s' = <[gde (this s) := with_tree t k]> (heap s) /\
  fs s' = fs s.
Proof.
  intros Hk Hts Hf. rewrite (evaluate_eq s k Hk), Hts, Hf. cbv zeta.
  destruct (kde_score_samples _ _ _ _) as [dens|]; [|by intros [= _ <-]].
  destruct (Dice _ _ _) as [d|]; [|by intros [= _ <-]].
  destruct (average_precision_score _ _) as [a|]; [|by intros [= _ <-]].
  destruct (roc _ _) as [[[fpr tpr] r]|]; [|by intros [= _ <-]].
  destruct (save_error _ _); [by intros [= _ <-]|discriminate].
Qed.

(** X6. When saving the plot fails inside [evaluate], the three metric
    lines are already printed, no file is written and the figure stays
    open, since [plt.close()] is not reached.  A later call of [plot_roc],
    once saving can succeed, draws on that figure: with no figure open at
    the failed run, the picture it saves holds the drawing of the failed
    run followed by its own. *)
Theorem failed_save_leaves_figure_open s k labels t dens d a fpr tpr r e :
  let p := roc_path (output_dir (this s)) (pathology (this s)) in
  let cmds := roc_commands fpr tpr r (pathology (this s)) in
  heap s !! gde (this s) = Some k ->
  figures s = [] ->
  log_density (this s) k = Ok (labels, t, dens) ->
  Dice "micro" (from_numpy (map SFopp dens)) labels = Ok d ->
  average_precision_score labels (from_numpy (map SFopp dens)) = Ok a ->
  roc (map SFopp dens) labels = Ok (fpr, tpr, r) ->
  save_error (fs s) p = Some e ->
  exists s1,
    evaluate s = (Raise e, s1) /\
    stdout s1 = stdout s ++ [dice_line d; ap_line a; roc_line r] /\
    fs s1 = fs s /\
    figures s1 = [cmds] /\
    forall fpr' tpr' a' pth' dir' (f' : gmap string Node),
      save_error f' (roc_path dir' pth') = None ->
      exists s2,
        plot_roc fpr' tpr' a' pth' dir' (set_fs f' s1) = (Ok tt, s2) /\
        fs s2 = <[roc_path dir' pth' :=
                   File (render (cmds ++ roc_commands fpr' tpr' a' pth'))]> f' /\
        figures s2 = [].
Proof.
  intros p cmds Hk Hfig Hl HD HA HR HS.
  destruct (log_density_inv _ _ _ _ _ Hl) as (embeds & Hts & Hf & Hd).
  eexists. split.
  { rewrite (evaluate_eq s k Hk), Hts, Hf. cbv zeta.
    rewrite Hd, HD, HA, HR. fold p. rewrite HS. reflexivity. }
  split; [reflexivity|]. split; [reflexivity|].
  split; [cbn [figures]; by rewrite Hfig|].
  intros fpr' tpr' a' pth' dir' f' HS'. eexists. split.
  { rewrite plot_roc_eq. cbv zeta. cbn [set_fs fs]. rewrite HS'.
    reflexivity. }
  cbn [fs figures set_fs drawn tail]. fold cmds. by rewrite Hfig.
Qed.

(** X7. A run that returns can be repeated, provided the loader yields
    the same test set again and the model still holds the same reference
    embeddings (the attributes may otherwise have been rebound, the
    estimator, the pathology and the output directory apart): the next run
    on the state the first left returns the same triple, prints the same
    three lines once more and leaves the heap as the first run left it;
    with no figure open at the first run it also leaves the same files. *)
Theorem evaluate_again s r d a s1 self2 :
  evaluate s = (Ok (r, d, a), s1) ->
  gde self2 = gde (this s) ->
  pathology self2 = pathology (this s) ->
  output_dir self2 = output_dir (this s) ->
  test_set self2 = test_set (this s) ->
  model_embeds (model self2) = model_embeds (model (this s)) ->
  exists s3,
    evaluate (with_self self2 s1) = (Ok (r, d, a), s3) /\
    this s3 = self2 /\
    heap s3 = heap s1 /\
    stdout s3 = stdout s1 ++ [dice_line d; ap_line a; roc_line r] /\
    (figures s = [] -> fs s3 = fs s1 /\ figures s3 = figures s1).
Proof.
  intros H Hg Hp Ho Ht Hm. apply evaluate_Ok_inv in H
    as (k & labels & t & dens & fpr & tpr & Hk & Hl & HD & HA & HR & HS & ->).
  destruct (log_density_inv _ _ _ _ _ Hl) as (embeds & Hts & Hf & Hd).
  eexists. split.
  { rewrite (evaluate_eq _ (with_tree t k)).
    2:{ cbn [with_self finished heap this]. rewrite Hg.
        apply lookup_insert_eq. }
    cbn [with_self finished this fs with_tree kernel bandwidth].
    rewrite Ht, Hts, Hm, Hf. cbv zeta. rewrite Hd, HD, HA, HR, Hp, Ho.
    rewrite (save_error_after_write _ _ _ HS). reflexivity. }
  cbn [finished with_self this heap stdout figures fs with_tree kernel
       bandwidth].
  split; [reflexivity|]. split; [by rewrite Hg, insert_insert_eq|].
  split; [reflexivity|]. intros Hfig. rewrite Hfig, Hp, Ho.
  cbn [tail drawn]. by rewrite insert_insert_eq.
Qed.

(** X8. Evaluators do not share an estimator: one constructed while another
    exists gets an estimator object of its own, and no sequence of calls on
    the new Evaluator touches the estimator of the old one. *)
Theorem estimators_are_not_shared s k m dv pth ld od (cs : list Call) :
  heap s !! gde (this s) = Some k ->
  let s2 := __init__ m dv pth ld od (world_of s) in
  gde (this s2) <> gde (this s) /\
  heap s2 !! gde (this s2) = Some (gaussian_kde None) /\
  heap (after_all cs s2) !! gde (this s) = Some k.
Proof.
  intros Hk s2.
  assert (Hne : gde (this s2) <> gde (this s)).
  { intros E. apply elem_of_dom_2 in Hk. rewrite <- E in Hk.
    by apply (is_fresh (dom (heap s))). }
  split; [exact Hne|]. split; [apply lookup_insert_eq|].
  rewrite (ev_others _ _ (evolves_after_all cs s2)) by done.
  cbn [s2 __init__ heap world_of w_heap]. by rewrite lookup_insert_ne.
Qed.

(** X9. [_predict] only reads: a call that returns leaves the state as it
    was, the estimator was fitted already, and negating the scores it
    returns gives back, bit for bit, the log-densities of the library. *)
Theorem predict_reads_and_is_exact X s scores s' :
  _predict X s = (Ok scores, s') ->
  s' = s /\
  exists k t,
    heap s !! gde (this s) = Some k /\ tree_ k = Some t /\
    kde_score_samples (kernel k) (bandwidth k) t X = Ok (map SFopp scores).
Proof.
  rewrite predict_eq. destruct (heap s !! gde (this s)) as [k|]; [|done].
  destruct (tree_ k) as [t|] eqn:Ht; [|done].
  destruct (kde_score_samples _ _ _ _) as [dens|] eqn:Hd; [|done].
  intros [= <- <-]. split; [done|]. exists k, t.
  by rewrite map_opp_involutive.
Qed.

(** X10. Only [evaluate] fits the estimator: on a newly constructed
    Evaluator, after any calls of [_predict], [calculate_roc] and
    [plot_roc], [_predict] still raises the not-fitted error of the library
    and changes nothing. *)
Theorem predict_needs_evaluate m dv pth ld od (w : World) (cs : list Call) X :
  forallb (fun c => negb (is_evaluate c)) cs = true ->
  let s := after_all cs (__init__ m dv pth ld od w) in
  _predict X s = (Raise NotFittedError, s).
Proof.
  intros H s. rewrite predict_eq.
  destruct (after_all_other_heap cs (__init__ m dv pth ld od w) H) as [T E].
  fold s in T, E. rewrite T, E. cbn [__init__ this gde heap].
  by rewrite lookup_insert_eq.
Qed.

(** X11. After a run that returned, [_predict] on the test embeddings gives
    again the scores that run computed its metrics from, without refitting
    or changing anything. *)
Theorem predict_after_evaluate s r d a s' :
  evaluate s = (Ok (r, d, a), s') ->
  exists labels embeds scores,
    test_set (this s) = Ok (labels, embeds) /\
    _predict embeds s' = (Ok scores, s') /\
    Dice "micro" (from_numpy scores) labels = Ok d /\
    average_precision_score labels (from_numpy scores) = Ok a.
Proof.
  intros H. apply evaluate_Ok_inv in H
    as (k & labels & t & dens & fpr & tpr & Hk & Hl & HD & HA & HR & HS & ->).
  destruct (log_density_inv _ _ _ _ _ Hl) as (embeds & Hts & Hf & Hd).
  exists labels, embeds, (map SFopp dens). split; [done|].
  split; [|done]. rewrite predict_eq. cbn [finished heap this].
  rewrite lookup_insert_eq. cbn [with_tree tree_ kernel bandwidth].
  by rewrite Hd.
Qed.

(** X12. Whatever methods are called, in whatever order and whether they
    return or raise: the attributes of the Evaluator stay, no estimator
    object is made or dropped, estimators other than [self.gde] are not
    touched, what was printed stays printed, and no directory is created
    or removed. *)
Theorem methods_keep_their_frame (cs : list Call) s :
  this (after_all cs s) = this s /\
  dom (heap (after_all cs s)) = dom (heap s) /\
  (forall l, l <> gde (this s) -> heap (after_all cs s) !! l = heap s !! l) /\
  (exists out, stdout (after_all cs s) = stdout s ++ out) /\
  (forall p, fs (after_all cs s) !! p = Some Dir <-> fs s !! p = Some Dir).
Proof.
  destruct (evolves_after_all cs s) as [T D P O S F].
  split; [exact T|]. split; [exact D|]. split; [exact O|].
  split; [exact S|exact F].
Qed.

(** X13. The only path [evaluate] ever writes is
    [<output_dir>/roc_<pathology>.png]: every other entry of the file
    system is after the call what it was before, whether the call returns
    or raises. *)
Theorem evaluate_writes_one_path s q :
  q <> roc_path (output_dir (this s)) (pathology (this s)) ->
  fs (snd (evaluate s)) !! q = fs s !! q.
Proof.
  intros Hq. destruct (heap s !! gde (this s)) as [k|] eqn:Hk.
  - destruct (evaluate_cases s k Hk) as
      [(e & out & s1 & _ & -> & _ & Hf)
      |(labels & t & dens & d & a & fpr & tpr & r & _ & _ & _ & _ & _ & ->)].
    + cbn [snd]. by rewrite Hf.
    + cbn [snd finished fs]. by rewrite lookup_insert_ne.
  - destruct (evaluate_unallocated s Hk) as [e ->]. reflexivity.
Qed.

(** X14. [evaluate] never reads [self.device]: with another device stored
    on the Evaluator the call has the same outcome and the same effects,
    the stored device apart. *)
Theorem evaluate_ignores_device d s :
  evaluate (set_device d s) =
    (fst (evaluate s), set_device d (snd (evaluate s))).
Proof.
  unfold evaluate.
  rewrite (bind_unfold get_self _ s), (bind_unfold get_self _ (set_device d s)).
  cbn [get_self set_device this model test_data_loader gde pathology
       output_dir].
  change ({| this := _; heap := heap s; stdout := stdout s;
             figures := figures s; fs := fs s |}) with (set_device d s).
  generalize (this s). intros self. revert d s.
  repeat lazymatch goal with
  | |- forall d s, (?m ≫= ?f) (set_device d s) = _ =>
      apply (blind_bind m f);
      [first [apply blind_lift | apply blind_print | apply blind_fit
             | apply blind_predict | apply blind_calculate_roc
             | apply blind_plot_roc]
      | intros ?]
  | |- device_blind ((let '(_, _) := ?x in _)) => destruct x
  | |- device_blind (?m ≫= ?f) =>
      apply (blind_bind m f);
      [first [apply blind_lift | apply blind_print | apply blind_fit
             | apply blind_predict | apply blind_calculate_roc
             | apply blind_plot_roc]
      | intros ?]
  end.
  apply blind_ret.
Qed.

End Properties.

(** ** The claims on a concrete run *)

(** A run of the stand-in library is computed up to its result; the state
    it leaves is named, not unfolded. *)
Ltac run m s := apply (run_result m s); vm_compute; reflexivity.

Lemma evaluate_scores_negate_log_density_witness :
  evaluate Stub.start = (Ok (f1, Stub.dice_value, f1), Stub.finish) /\
  exists k labels embeds t dens,
    heap Stub.start !! gde (this Stub.start) = Some k /\
    (forall m dv pth ld od w cs,
        Stub.start = after_all cs (__init__ m dv pth ld od w) ->
        kernel k = "gaussian" /\ bandwidth k = 1) /\
    test_set (this Stub.start) = Ok (labels, embeds) /\
    kde_fit (kernel k) (bandwidth k)
      (cpu (model_embeds (model (this Stub.start)))) = Ok t /\
    kde_score_samples (kernel k) (bandwidth k) t embeds = Ok dens /\
    Dice "micro" (from_numpy (map SFopp dens)) labels = Ok Stub.dice_value /\
    average_precision_score labels (from_numpy (map SFopp dens)) = Ok f1 /\
    (exists fpr tpr, roc (map SFopp dens) labels = Ok (fpr, tpr, f1)) /\
    forall i j x y, dens !! i = Some x -> dens !! j = Some y ->
      map SFopp dens !! i = Some (SFopp x) /\
      map SFopp dens !! j = Some (SFopp y) /\
      SFltb (SFopp y) (SFopp x) = SFltb x y.
Proof.
  split; [run (@evaluate Stub.lib) Stub.start|].
  apply (evaluate_scores_negate_log_density
           Stub.start f1 Stub.dice_value f1 Stub.finish).
  run (@evaluate Stub.lib) Stub.start.
Defined.

Lemma evaluate_returns_triple_and_prints_witness :
  evaluate Stub.start = (Ok (f1, Stub.dice_value, f1), Stub.finish) /\
  stdout Stub.finish =
    ["Dice score: 0.800"; "Average precision: 1.000"; "ROC AUC: 1.000"].
Proof.
  split; [run (@evaluate Stub.lib) Stub.start|].
  destruct (evaluate_returns_triple_and_prints
              Stub.start f1 Stub.dice_value f1 Stub.finish) as [_ H].
  - run (@evaluate Stub.lib) Stub.start.
  - rewrite H. vm_compute; reflexivity.
Defined.



(** Against C6 as stated: before the call the estimator of the Evaluator is
    not fitted; after [evaluate] has returned it is, on the reference
    embedding [0.0] of the model. *)
Lemma evaluate_estimator_stays_fitted :
  evaluate Stub.start = (Ok (f1, Stub.dice_value, f1), Stub.finish) /\
  heap Stub.start !! gde (this Stub.start) = Some (gaussian_kde None) /\
  heap Stub.finish !! gde (this Stub.finish) = Some (gaussian_kde (Some [f0])).
Proof.
  split; [run (@evaluate Stub.lib) Stub.start|]. split; reflexivity.
Qed.

Lemma evaluate_leaves_estimator_fitted_witness :
  evaluate Stub.start = (Ok (f1, Stub.dice_value, f1), Stub.finish) /\
  exists k t,
    heap Stub.start !! gde (this Stub.start) = Some k /\
    kde_fit (kernel k) (bandwidth k)
      (cpu (model_embeds (model (this Stub.start)))) = Ok t /\
    this Stub.finish = this Stub.start /\
    heap Stub.finish = <[gde (this Stub.start) := with_tree t k]>
                         (heap Stub.start) /\
    forall s2 k2 res s2',
      this s2 = this Stub.start -> heap s2 !! gde (this s2) = Some k2 ->
      kernel k2 = kernel k -> bandwidth k2 = bandwidth k ->
      evaluate s2 = (Ok res, s2') -> res = (f1, Stub.dice_value, f1).
Proof.
  split; [run (@evaluate Stub.lib) Stub.start|].
  apply (evaluate_leaves_estimator_fitted
           Stub.start f1 Stub.dice_value f1 Stub.finish).
  run (@evaluate Stub.lib) Stub.start.
Defined.

(** Against C7 as stated: a call of [calculate_roc] that returns has
    written a line to standard output. *)
Lemma calculate_roc_prints :
  fst (calculate_roc Stub.scores Stub.labels Stub.start)
    = Ok ([f0; f0; f1], [f0; f1; f1], f1) /\
  stdout Stub.start = [] /\
  stdout (snd (calculate_roc Stub.scores Stub.labels Stub.start))
    = ["ROC AUC: 1.000"].
Proof. repeat split; vm_compute; reflexivity. Qed.

(** A run without the output directory: [savefig] raises once the three
    lines are out, and [evaluate] raises the same. *)
Lemma evaluate_propagates_witness :
  heap Stub.bare_start !! gde (this Stub.bare_start)
    = Some (gaussian_kde None) /\
  library_raises (this Stub.bare_start) (gaussian_kde None)
    (fs Stub.bare_start) (FileNotFoundError "./results/roc_tumor.png")
    [dice_line Stub.dice_value; ap_line f1; roc_line f1] /\
  exists s',
    evaluate Stub.bare_start =
      (Raise (FileNotFoundError "./results/roc_tumor.png"), s') /\
    stdout s' = stdout Stub.bare_start ++
      [dice_line Stub.dice_value; ap_line f1; roc_line f1] /\
    fs s' = fs Stub.bare_start.
Proof.
  assert (Hk : heap Stub.bare_start !! gde (this Stub.bare_start)
               = Some (gaussian_kde None)) by reflexivity.
  assert (Hr : library_raises (this Stub.bare_start) (gaussian_kde None)
    (fs Stub.bare_start) (FileNotFoundError "./results/roc_tumor.png")
    [dice_line Stub.dice_value; ap_line f1; roc_line f1]).
  { apply (@raises_savefig Stub.lib _ _ _ Stub.labels [f0] (map SFopp Stub.scores)
             Stub.dice_value f1 [f0; f0; f1] [f0; f1; f1] f1);
      vm_compute; reflexivity. }
  split; [exact Hk|]. split; [exact Hr|].
  exact (proj1 (evaluate_propagates Stub.bare_start (gaussian_kde None) Hk)
           _ _ Hr).
Defined.

Lemma estimator_made_once_refit_each_call_witness :
  (evaluate (after_all [CallEvaluate] Stub.start)
     = (Ok (f1, Stub.dice_value, f1), Stub.finish2) /\
   exists t,
     kde_fit "gaussian" 1 (cpu (model_embeds Stub.net)) = Ok t /\
     gde (this Stub.finish2) = gde (this Stub.start) /\
     dom (heap Stub.finish2) = dom (heap Stub.start) /\
     heap Stub.finish2 !! gde (this Stub.start)
       = Some (gaussian_kde (Some t))) /\
  (heap (after_all [CallEvaluate] Stub.start) !! gde (this Stub.start)
     = Some (gaussian_kde (Some [f0])) /\
   evaluate (with_self Stub.far_self (after_all [CallEvaluate] Stub.start))
     = (Ok (Stub.half, Stub.far_dice, Stub.half), Stub.far_finish) /\
   heap Stub.far_finish !! gde (this Stub.start)
     = Some (gaussian_kde (Some [Stub.of_Z 5])) /\
   exists t,
     kde_fit "gaussian" 1 (cpu (model_embeds (model Stub.far_self))) = Ok t /\
     gde (this Stub.far_finish) = gde (this Stub.start) /\
     dom (heap Stub.far_finish) = dom (heap Stub.start) /\
     heap Stub.far_finish !! gde (this Stub.start)
       = Some (gaussian_kde (Some t))).
Proof.
  assert (H : evaluate (after_all [CallEvaluate] Stub.start)
              = (Ok (f1, Stub.dice_value, f1), Stub.finish2))
    by run (@evaluate Stub.lib) (after_all [CallEvaluate] Stub.start).
  assert (H' :
    evaluate (with_self Stub.far_self (after_all [CallEvaluate] Stub.start))
      = (Ok (Stub.half, Stub.far_dice, Stub.half), Stub.far_finish))
    by run (@evaluate Stub.lib)
         (with_self Stub.far_self (after_all [CallEvaluate] Stub.start)).
  split.
  - split; [exact H|].
    exact (proj1 (proj2 (proj2 (proj2 (proj2 (proj2
      (estimator_made_once_refit_each_call
         Stub.net "cpu" "tumor" Stub.loader None Stub.world
         [CallEvaluate])))))) _ _ H).
  - split; [reflexivity|]. split; [exact H'|]. split; [reflexivity|].
    exact (proj1 (proj2 (proj2 (proj2 (proj2 (proj2 (proj2
      (estimator_made_once_refit_each_call
         Stub.net "cpu" "tumor" Stub.loader None Stub.world
         [CallEvaluate]))))))) Stub.far_self _ _ eq_refl H').
Defined.

(** The second run on the same Evaluator, from the state the first run
    left (estimator fitted, three lines printed, image on disk), returns
    what the first returned. *)
Lemma evaluate_deterministic_witness :
  this Stub.start = this Stub.finish /\
  heap Stub.start !! gde (this Stub.start) = Some (gaussian_kde None) /\
  heap Stub.finish !! gde (this Stub.finish)
    = Some (gaussian_kde (Some [f0])) /\
  evaluate Stub.start = (Ok (f1, Stub.dice_value, f1), Stub.finish) /\
  evaluate Stub.finish = (Ok (f1, Stub.dice_value, f1), Stub.finish2) /\
  (f1, Stub.dice_value, f1) = (f1, Stub.dice_value, f1) /\
  forall s s',
    (s, s') = (Stub.start, Stub.finish) \/
    (s, s') = (Stub.finish, Stub.finish2) ->
    model (this s') = model (this s) /\
    device (this s') = device (this s) /\
    pathology (this s') = pathology (this s) /\
    test_data_loader (this s') = test_data_loader (this s) /\
    output_dir (this s') = output_dir (this s).
Proof.
  assert (E1 : evaluate Stub.start
               = (Ok (f1, Stub.dice_value, f1), Stub.finish))
    by run (@evaluate Stub.lib) Stub.start.
  assert (E2 : evaluate Stub.finish
               = (Ok (f1, Stub.dice_value, f1), Stub.finish2))
    by run (@evaluate Stub.lib) Stub.finish.
  repeat (split; [assumption || reflexivity|]).
  apply (evaluate_deterministic Stub.start Stub.finish
           (@gaussian_kde Stub.lib None)
           (@gaussian_kde Stub.lib (Some [f0]))
           (f1, Stub.dice_value, f1) (f1, Stub.dice_value, f1)
           Stub.finish Stub.finish2); assumption || reflexivity.
Defined.

(** ** The further properties on concrete runs *)

Lemma collect_in_order_witness :
  Forall2 (fun b o => forward Stub.net b.1 = Ok o) Stub.loader
    [ (map Stub.of_Z [0; 1; 5; 6], tt); (map Stub.of_Z [-1; 0; 7; -6], tt) ] /\
  collect Stub.net Stub.loader [] [] =
    Ok ([ map Stub.of_Z [0; 0; 1; 1]; map Stub.of_Z [0; 0; 1; 1] ],
        [ map Stub.of_Z [0; 1; 5; 6]; map Stub.of_Z [-1; 0; 7; -6] ]).
Proof.
  assert (H : Forall2 (fun b o => forward Stub.net b.1 = Ok o) Stub.loader
    [ (map Stub.of_Z [0; 1; 5; 6], tt); (map Stub.of_Z [-1; 0; 7; -6], tt) ])
    by (repeat constructor).
  split; [exact H|]. exact (collect_in_order _ _ _ H).
Defined.

Lemma collect_stops_at_first_failure_witness :
  Forall2 (fun b o => forward Stub.picky b.1 = Ok o)
    [ ([3], [f1]) ] [ (map Stub.of_Z [3], tt) ] /\
  forward Stub.picky [] = Raise (LibraryError "ValueError" "empty batch") /\
  collect Stub.picky ([ ([3], [f1]) ] ++ ([], []) :: [ ([4], [f0]) ]) [] []
    = Raise (LibraryError "ValueError" "empty batch").
Proof.
  assert (H : Forall2 (fun b o => forward Stub.picky b.1 = Ok o)
    [ ([3], [f1]) ] [ (map Stub.of_Z [3], tt) ]) by (repeat constructor).
  split; [exact H|]. split; [reflexivity|].
  exact (collect_stops_at_first_failure
           Stub.picky _ _ [] [] [ ([4], [f0]) ] _ H eq_refl).
Defined.

Lemma evaluate_gathering_failure_changes_nothing_witness :
  test_set (this Stub.empty_start)
    = Raise (LibraryError "RuntimeError"
               "expected a non-empty list of Tensors") /\
  evaluate Stub.empty_start
    = (Raise (LibraryError "RuntimeError"
                "expected a non-empty list of Tensors"), Stub.empty_start).
Proof.
  assert (H : test_set (this Stub.empty_start)
    = Raise (LibraryError "RuntimeError"
               "expected a non-empty list of Tensors")) by reflexivity.
  split; [exact H|].
  exact (evaluate_gathering_failure_changes_nothing Stub.empty_start _ H).
Defined.

Lemma evaluate_empty_loader_witness :
  test_data_loader (this Stub.empty_start) = [] /\
  @torch_cat Stub.lib []
    = Raise (LibraryError "RuntimeError"
               "expected a non-empty list of Tensors") /\
  collect (model (this Stub.empty_start))
    (test_data_loader (this Stub.empty_start)) [] [] = Ok ([], []) /\
  evaluate Stub.empty_start
    = (Raise (LibraryError "RuntimeError"
                "expected a non-empty list of Tensors"), Stub.empty_start).
Proof.
  split; [reflexivity|]. split; [reflexivity|].
  exact (evaluate_empty_loader Stub.empty_start _ eq_refl eq_refl).
Defined.

(** Dice refuses three labels for two scores; the estimator has been
    refitted by then. *)
Lemma evaluate_failure_keeps_the_fit_witness :
  heap Stub.ragged_start !! gde (this Stub.ragged_start)
    = Some (gaussian_kde None) /\
  test_set (this Stub.ragged_start)
    = Ok (map Stub.of_Z [0; 0; 1], map Stub.of_Z [0; 1]) /\
  evaluate Stub.ragged_start = (Raise Stub.shape_error, Stub.ragged_finish) /\
  this Stub.ragged_finish = this Stub.ragged_start /\
  heap Stub.ragged_finish =
    <[gde (this Stub.ragged_start) := gaussian_kde (Some [f0])]>
      (heap Stub.ragged_start) /\
  fs Stub.ragged_finish = fs Stub.ragged_start.
Proof.
  assert (Hk : heap Stub.ragged_start !! gde (this Stub.ragged_start)
               = Some (gaussian_kde None)) by reflexivity.
  assert (Hts : test_set (this Stub.ragged_start)
    = Ok (map Stub.of_Z [0; 0; 1], map Stub.of_Z [0; 1])) by reflexivity.
  assert (He : evaluate Stub.ragged_start
               = (Raise Stub.shape_error, Stub.ragged_finish)).
  { apply (run_result evaluate Stub.ragged_start); vm_compute; reflexivity. }
  split; [exact Hk|]. split; [exact Hts|]. split; [exact He|].
  exact (evaluate_failure_keeps_the_fit Stub.ragged_start
           (gaussian_kde None) _ _ [f0] _ _ Hk Hts eq_refl He).
Defined.

Lemma failed_save_leaves_figure_open_witness :
  exists s1,
    evaluate Stub.bare_start
      = (Raise (FileNotFoundError "./results/roc_tumor.png"), s1) /\
    stdout s1 = stdout Stub.bare_start ++
      [dice_line Stub.dice_value; ap_line f1; roc_line f1] /\
    fs s1 = fs Stub.bare_start /\
    figures s1 = [roc_commands [f0; f0; f1] [f0; f1; f1] f1 "tumor"] /\
    forall fpr' tpr' a' pth' dir' (f' : gmap string Node),
      save_error f' (roc_path dir' pth') = None ->
      exists s2,
        plot_roc fpr' tpr' a' pth' dir' (set_fs f' s1) = (Ok tt, s2) /\
        fs s2 = <[roc_path dir' pth' :=
                   File (render
                     (roc_commands [f0; f0; f1] [f0; f1; f1] f1 "tumor" ++
                      roc_commands fpr' tpr' a' pth'))]> f' /\
        figures s2 = [].
Proof.
  apply (failed_save_leaves_figure_open Stub.bare_start
           (@gaussian_kde Stub.lib None) Stub.labels [f0]
           (map SFopp Stub.scores) Stub.dice_value f1
           [f0; f0; f1] [f0; f1; f1] f1
           (FileNotFoundError "./results/roc_tumor.png"));
    try reflexivity; vm_compute; reflexivity.
Defined.

(** The second run gathers the same eight samples from one batch instead
    of two. *)
Lemma evaluate_again_witness :
  evaluate Stub.start = (Ok (f1, Stub.dice_value, f1), Stub.finish) /\
  test_data_loader Stub.regrouped_self <> test_data_loader (this Stub.start) /\
  test_set Stub.regrouped_self = test_set (this Stub.start) /\
  exists s3,
    evaluate (with_self Stub.regrouped_self Stub.finish)
      = (Ok (f1, Stub.dice_value, f1), s3) /\
    this s3 = Stub.regrouped_self /\
    heap s3 = heap Stub.finish /\
    stdout s3 = stdout Stub.finish ++
      [dice_line Stub.dice_value; ap_line f1; roc_line f1] /\
    (figures Stub.start = [] ->
     fs s3 = fs Stub.finish /\ figures s3 = figures Stub.finish).
Proof.
  assert (H : evaluate Stub.start
              = (Ok (f1, Stub.dice_value, f1), Stub.finish))
    by run (@evaluate Stub.lib) Stub.start.
  assert (Ht : test_set Stub.regrouped_self = test_set (this Stub.start))
    by (vm_compute; reflexivity).
  split; [exact H|]. split; [discriminate|]. split; [exact Ht|].
  exact (evaluate_again _ _ _ _ _ Stub.regrouped_self H
           eq_refl eq_refl eq_refl Ht eq_refl).
Defined.

Lemma estimators_are_not_shared_witness :
  heap Stub.finish !! gde (this Stub.finish)
    = Some (gaussian_kde (Some [f0])) /\
  gde (this Stub.second) <> gde (this Stub.finish) /\
  heap Stub.second !! gde (this Stub.second) = Some (gaussian_kde None) /\
  heap (after_all [CallEvaluate; CallEvaluate] Stub.second)
    !! gde (this Stub.finish) = Some (gaussian_kde (Some [f0])).
Proof.
  assert (Hk : heap Stub.finish !! gde (this Stub.finish)
               = Some (gaussian_kde (Some [f0]))) by reflexivity.
  split; [exact Hk|].
  exact (estimators_are_not_shared Stub.finish _ Stub.picky "cuda" "edema"
           Stub.loader (Some "./out") [CallEvaluate; CallEvaluate] Hk).
Defined.

Lemma predict_reads_and_is_exact_witness :
  _predict (map Stub.of_Z [2; -3]) Stub.finish
    = (Ok (map Stub.of_Z [4; 9]),
       snd (_predict (map Stub.of_Z [2; -3]) Stub.finish)) /\
  snd (_predict (map Stub.of_Z [2; -3]) Stub.finish) = Stub.finish /\
  exists k t,
    heap Stub.finish !! gde (this Stub.finish) = Some k /\ tree_ k = Some t /\
    kde_score_samples (kernel k) (bandwidth k) t (map Stub.of_Z [2; -3])
      = Ok (map SFopp (map Stub.of_Z [4; 9])).
Proof.
  assert (H : _predict (map Stub.of_Z [2; -3]) Stub.finish
    = (Ok (map Stub.of_Z [4; 9]),
       snd (_predict (map Stub.of_Z [2; -3]) Stub.finish)))
    by run (_predict (map Stub.of_Z [2; -3])) Stub.finish.
  split; [exact H|]. exact (predict_reads_and_is_exact _ _ _ _ H).
Defined.

Lemma predict_needs_evaluate_witness :
  forallb (fun c => negb (is_evaluate c)) Stub.idle_calls = true /\
  _predict [f1] (after_all Stub.idle_calls Stub.start)
    = (Raise NotFittedError, after_all Stub.idle_calls Stub.start).
Proof.
  split; [reflexivity|].
  exact (predict_needs_evaluate Stub.net "cpu" "tumor" Stub.loader None
           Stub.world Stub.idle_calls [f1] eq_refl).
Defined.

Lemma predict_after_evaluate_witness :
  evaluate Stub.start = (Ok (f1, Stub.dice_value, f1), Stub.finish) /\
  exists labels embeds scores,
    test_set (this Stub.start) = Ok (labels, embeds) /\
    _predict embeds Stub.finish = (Ok scores, Stub.finish) /\
    Dice "micro" (from_numpy scores) labels = Ok Stub.dice_value /\
    average_precision_score labels (from_numpy scores) = Ok f1.
Proof.
  assert (H : evaluate Stub.start
              = (Ok (f1, Stub.dice_value, f1), Stub.finish))
    by run (@evaluate Stub.lib) Stub.start.
  split; [exact H|]. exact (predict_after_evaluate _ _ _ _ _ H).
Defined.

Lemma evaluate_writes_one_path_witness :
  "./results" <> roc_path (output_dir (this Stub.start))
                   (pathology (this Stub.start)) /\
  fs (snd (evaluate Stub.start)) !! "./results" = fs Stub.start !! "./results".
Proof.
  assert (H : "./results" <> roc_path (output_dir (this Stub.start))
                               (pathology (this Stub.start)))
    by (vm_compute; discriminate).
  split; [exact H|]. exact (evaluate_writes_one_path Stub.start _ H).
Defined.
